(** * ORBIT "Cognitive Canvas" client: a shallow embedding

    The development follows the TypeScript/JavaScript sources of the client:

    - [Canvas]      : the zustand store of [hooks/useCanvasState.ts]
                      (canvas state machine, optimistic task mutation,
                      urgency heuristic);
    - [Orbits]      : the orbital layout of [canvas/TaskOrbits.tsx];
    - [OrbitView]   : the [TaskOrbit] component (at most eight tasks);
    - [TaskStore]   : the task store with [getTasksByOrbitalDistance];
    - [Offline]     : the IndexedDB queue ([OfflineStorage]), the sync pass
                      of the [useOffline] hook and the service worker
                      ([public/sw.js]).

    JavaScript numbers are modelled by exact rationals ([Q]); NaN and the
    infinities are outside the model, which is said where a function could
    see them.  Timestamps (milliseconds since the epoch) are integers ([Z]).
    A rejected promise or a thrown exception is the left summand of a sum. *)

From Stdlib Require Import ZArith QArith Qminmax Qround Qabs Lia Lqa.
From Stdlib Require Import Ascii String.
From Stdlib Require Import Sorting.Sorted Sorting.Permutation.
From stdpp Require Import base tactics option list strings pretty gmap.

Set Default Proof Using "Type".
Open Scope string_scope.

(** ** JavaScript values used by the sources *)

Module Js.

(** What a [catch] clause receives: an [Error] object with its message, or
    any other thrown value. *)
Inductive Thrown : Type :=
| ErrorObj (message : string)
| TypeError (message : string)
| NonError.

(** [error instanceof Error]: a [TypeError] is an [Error] too. *)
Definition instanceofError (e : Thrown) : option string :=
  match e with
  | ErrorObj m | TypeError m => Some m
  | NonError => None
  end.

(** The settled state of a promise. *)
Definition Settled (A : Type) : Type := (Thrown + A)%type.

(** Truthiness of an optional string: [undefined] and [""] are falsy. *)
Definition truthy_string (s : option string) : option string :=
  match s with
  | Some "" | None => None
  | Some t => Some t
  end.

(** Truthiness of an optional number: [undefined] and [0] are falsy. *)
Definition truthy_number (x : option Q) : option Q :=
  match x with
  | Some q => if Qeq_bool q 0 then None else Some q
  | None => None
  end.

(** [a || b] on optional strings and numbers with a default. *)
Definition or_string (s : option string) (d : string) : string :=
  default d (truthy_string s).

Definition or_number (x : option Q) (d : Q) : Q :=
  default d (truthy_number x).

(** [x < y] on numbers. *)
Definition Qltb (x y : Q) : bool := negb (Qle_bool y x).

(** [Math.round]: the nearest integer, ties towards plus infinity. *)
Definition Math_round (x : Q) : Z := Qfloor (x + (1 # 2))%Q.

End Js.

(** ** The canvas store ([hooks/useCanvasState.ts]) *)

Module Canvas.

Inductive CanvasState : Type :=
| idle | inputting | listening | thinking
| responding | reflecting | identity | silent.

(** [CoreState] of [canvas/FocusCore.tsx]. *)
Inductive CoreState : Type :=
| core_idle | core_listening | core_thinking | core_acting | core_silent.

Inductive NodeStatus : Type := active | completing | fading.

#[global] Instance CanvasState_eq_dec : EqDecision CanvasState.
Proof. solve_decision. Defined.
#[global] Instance CoreState_eq_dec : EqDecision CoreState.
Proof. solve_decision. Defined.
#[global] Instance NodeStatus_eq_dec : EqDecision NodeStatus.
Proof. solve_decision. Defined.

(** [TaskNode] of [canvas/TaskOrbits.tsx].  The age is the only number of
    a node that can be NaN (an unparsable creation date): [None]. *)
Record TaskNode : Type := mkTaskNode {
  task_id : string;
  task_title : string;
  task_priority : Q;
  task_urgency : Q;
  task_age : option Q;
  task_status : NodeStatus
}.

Record SuggestedAction : Type := mkAction {
  action_id : string;
  action_title : string;
  estimatedMinutes : option Q
}.

Record AIResponse : Type := mkAIResponse {
  statement : string;
  actions : list SuggestedAction;
  confidence : option string;
  intentId : option string
}.

Record CanvasStore : Type := mkStore {
  state : CanvasState;
  coreState : CoreState;
  urgency : Q;
  tasks : list TaskNode;
  transcript : string;
  isTranscribing : bool;
  aiResponse : option AIResponse;
  lastInteraction : Z;
  silenceThreshold : Z;
  error : option string
}.

(** zustand's [set] merges a partial object into the store: one setter per
    field, composed for a partial object with several fields. *)
Definition set_state (v : CanvasState) (s : CanvasStore) : CanvasStore :=
  mkStore v (coreState s) (urgency s) (tasks s) (transcript s)
          (isTranscribing s) (aiResponse s) (lastInteraction s)
          (silenceThreshold s) (error s).
Definition set_coreState (v : CoreState) (s : CanvasStore) : CanvasStore :=
  mkStore (state s) v (urgency s) (tasks s) (transcript s)
          (isTranscribing s) (aiResponse s) (lastInteraction s)
          (silenceThreshold s) (error s).
Definition set_urgency (v : Q) (s : CanvasStore) : CanvasStore :=
  mkStore (state s) (coreState s) v (tasks s) (transcript s)
          (isTranscribing s) (aiResponse s) (lastInteraction s)
          (silenceThreshold s) (error s).
Definition set_tasks (v : list TaskNode) (s : CanvasStore) : CanvasStore :=
  mkStore (state s) (coreState s) (urgency s) v (transcript s)
          (isTranscribing s) (aiResponse s) (lastInteraction s)
          (silenceThreshold s) (error s).
Definition set_transcript (v : string) (s : CanvasStore) : CanvasStore :=
  mkStore (state s) (coreState s) (urgency s) (tasks s) v
          (isTranscribing s) (aiResponse s) (lastInteraction s)
          (silenceThreshold s) (error s).
Definition set_isTranscribing (v : bool) (s : CanvasStore) : CanvasStore :=
  mkStore (state s) (coreState s) (urgency s) (tasks s) (transcript s)
          v (aiResponse s) (lastInteraction s)
          (silenceThreshold s) (error s).
Definition set_aiResponse (v : option AIResponse) (s : CanvasStore)
  : CanvasStore :=
  mkStore (state s) (coreState s) (urgency s) (tasks s) (transcript s)
          (isTranscribing s) v (lastInteraction s)
          (silenceThreshold s) (error s).
Definition set_lastInteraction (v : Z) (s : CanvasStore) : CanvasStore :=
  mkStore (state s) (coreState s) (urgency s) (tasks s) (transcript s)
          (isTranscribing s) (aiResponse s) v
          (silenceThreshold s) (error s).
Definition set_error (v : option string) (s : CanvasStore) : CanvasStore :=
  mkStore (state s) (coreState s) (urgency s) (tasks s) (transcript s)
          (isTranscribing s) (aiResponse s) (lastInteraction s)
          (silenceThreshold s) v.

(** The store as [create] builds it; [now] is [Date.now()] at that time. *)
Definition initial (now : Z) : CanvasStore :=
  mkStore idle core_idle (3 # 10) [] "" false None now (5 * 60 * 1000) None.

Definition mapToCoreState (st : CanvasState) : CoreState :=
  match st with
  | listening => core_listening
  | thinking => core_thinking
  | responding => core_acting
  | silent | reflecting | identity => core_silent
  | _ => core_idle
  end.

(** *** Silence mode *)

Definition recordInteraction (now : Z) (s : CanvasStore) : CanvasStore :=
  set_state (if decide (state s = silent) then idle else state s)
            (set_lastInteraction now s).

Definition checkSilence (now : Z) (s : CanvasStore) : CanvasStore :=
  let timeSinceInteraction := (now - lastInteraction s)%Z in
  if (silenceThreshold s <? timeSinceInteraction)%Z
     && bool_decide (state s = idle)
  then set_coreState core_silent (set_state silent s)
  else s.

(** The condition of the [if] in [checkSilence], as a proposition. *)
Definition silenceDue (now : Z) (s : CanvasStore) : Prop :=
  state s = idle /\ (silenceThreshold s < now - lastInteraction s)%Z.

#[global] Instance silenceDue_dec now s : Decision (silenceDue now s).
Proof. unfold silenceDue. apply _. Defined.

(** *** Synchronous actions *)

Definition setState (now : Z) (st : CanvasState) (s : CanvasStore)
  : CanvasStore :=
  let core := mapToCoreState st in
  recordInteraction now (set_coreState core (set_state st s)).

Definition setUrgency (u : Q) (s : CanvasStore) : CanvasStore :=
  set_urgency u s.

Definition setError (e : option string) (s : CanvasStore) : CanvasStore :=
  set_error e s.

Definition openInput (now : Z) (s : CanvasStore) : CanvasStore :=
  recordInteraction now
    (set_error None (set_coreState core_idle (set_state inputting s))).

Definition closeInput (s : CanvasStore) : CanvasStore :=
  set_coreState core_idle (set_state idle s).

Definition startListening (now : Z) (s : CanvasStore) : CanvasStore :=
  recordInteraction now
    (set_isTranscribing true
       (set_transcript ""
          (set_coreState core_listening (set_state listening s)))).

Definition setTranscript (t : string) (s : CanvasStore) : CanvasStore :=
  set_transcript t s.

Definition setAIResponse (r : option AIResponse) (s : CanvasStore)
  : CanvasStore :=
  set_aiResponse r s.

Definition setTasks (ts : list TaskNode) (s : CanvasStore) : CanvasStore :=
  set_tasks ts s.

Definition addTask (t : TaskNode) (s : CanvasStore) : CanvasStore :=
  set_tasks (tasks s ++ [t]) s.

Definition showReflection (_insight : string) (s : CanvasStore)
  : CanvasStore :=
  set_coreState core_silent (set_state reflecting s).

Definition showIdentity (now : Z) (s : CanvasStore) : CanvasStore :=
  recordInteraction now (set_coreState core_silent (set_state identity s)).

Definition dismissOverlay (s : CanvasStore) : CanvasStore :=
  set_coreState core_idle (set_state idle s).

(** *** The backend, as [services/api.ts] presents it

    Every helper of [api] returns a promise.  The response interceptor
    rejects with [new Error(message)]; the resolved value carries the
    response body in [data].  Bodies are typed as the callers read them:
    an optional field that the caller guards with [||] or [?.] is an
    [option]. *)

Inductive InputSource : Type := text_source | voice_source.

Record IntentData : Type := mkIntentData {
  intent_id : option string
}.

Record SuggestedTaskData : Type := mkSuggested {
  suggested_id : option string;
  suggested_title : string;
  estimated_minutes : option Q
}.

Record InterpretationData : Type := mkInterpretation {
  interpretation : option string;
  suggested_tasks : option (list SuggestedTaskData);
  interpretation_confidence : option Q
}.

Record CreateTaskBody : Type := mkCreateTaskBody {
  body_title : string;
  body_estimated_minutes : option Q
}.

Record CreatedTaskData : Type := mkCreatedTask {
  created_id : option string
}.

Record BackendTask : Type := mkBackendTask {
  backend_id : string;
  backend_title : string;
  backend_priority : option Q;
  backend_status : string;
  backend_created_at : string;
  backend_due_date : option string
}.

Definition msPerDay : Z := 1000 * 60 * 60 * 24.

Section Actions.

(** [new Date(s).getTime()]; [None] is NaN (an invalid date). *)
Variable Date_getTime : string -> option Z.

(** [String.prototype.trim]. *)
Variable String_trim : string -> string.

Variable api_createIntent : string -> InputSource -> Js.Settled IntentData.
Variable api_interpretIntent :
  option string -> Js.Settled InterpretationData.
Variable api_createTask : CreateTaskBody -> Js.Settled CreatedTaskData.
Variable api_getTasks : Js.Settled (option (list BackendTask)).

(** *** Urgency and age of a backend task *)

(** [daysUntilDue], when the task has a due date that parses; a missing
    date skips the [if], and with NaN every comparison is false. *)
Definition daysUntilDue (now : Z) (task : BackendTask) : option Q :=
  due_date ← Js.truthy_string (backend_due_date task);
  dueDate ← Date_getTime due_date;
  Some (inject_Z (dueDate - now) / inject_Z msPerDay)%Q.

Definition calculateUrgency (now : Z) (task : BackendTask) : Q :=
  let urgency := Js.or_number (backend_priority task) (1 # 2) in
  let urgency :=
    match daysUntilDue now task with
    | Some days =>
        if Js.Qltb days 1 then Qmax urgency (9 # 10)
        else if Js.Qltb days 3 then Qmax urgency (7 # 10)
        else if Js.Qltb days 7 then Qmax urgency (5 # 10)
        else urgency
    | None => urgency
    end in
  Qmin urgency 1.

Definition calculateAge (now : Z) (createdAt : string) : option Q :=
  created ← Date_getTime createdAt;
  Some (inject_Z (Qfloor (inject_Z (now - created) / inject_Z msPerDay)%Q)).

(** *** submitInput *)

Definition toAIResponse (intentId : option string)
    (interp : InterpretationData) : AIResponse :=
  {| statement :=
       Js.or_string (interpretation interp)
                    "I understand. Here's what I suggest.";
     actions :=
       match suggested_tasks interp with
       | Some ts =>
           imap (fun i task =>
                   mkAction
                     (Js.or_string (suggested_id task)
                                   ("action-" +:+ pretty i))
                     (suggested_title task)
                     (estimated_minutes task)) ts
       | None => []
       end;
     confidence :=
       Some match Js.truthy_number (interpretation_confidence interp) with
            | Some c =>
                pretty (Js.Math_round (c * 100)%Q) +:+ "% confident"
            | None => "Based on your patterns"
            end;
     intentId := intentId |}.

(** The part before the first [await]. *)
Definition submitInput_begin (now : Z) (s : CanvasStore) : CanvasStore :=
  recordInteraction now
    (set_error None (set_coreState core_thinking (set_state thinking s))).

(** The [catch] clause. *)
Definition submitInput_catch (e : Js.Thrown) (s : CanvasStore)
  : CanvasStore :=
  set_coreState core_idle
    (set_state idle
       (set_error
          (Some (default "Failed to process your thought"
                         (Js.instanceofError e))) s)).

(** The end of the [try] block. *)
Definition submitInput_done (intentId : option string)
    (interp : InterpretationData) (s : CanvasStore) : CanvasStore :=
  set_coreState core_acting
    (set_state responding
       (set_aiResponse (Some (toAIResponse intentId interp)) s)).

Definition submitInput (now : Z) (text : string) (source : InputSource)
    (s : CanvasStore) : CanvasStore :=
  let s1 := submitInput_begin now s in
  match api_createIntent text source with
  | inl e => submitInput_catch e s1
  | inr intentResponse =>
      let intentId := intent_id intentResponse in
      match api_interpretIntent intentId with
      | inl e => submitInput_catch e s1
      | inr interp => submitInput_done intentId interp s1
      end
  end.

Definition stopListening (now : Z) (s : CanvasStore) : CanvasStore :=
  let t := transcript s in
  let s1 := set_isTranscribing false s in
  if bool_decide (String_trim t = "")
  then set_coreState core_idle (set_state idle s1)
  else submitInput now t text_source s1.

(** *** selectAction *)

Definition newTask (id title : string) : TaskNode :=
  mkTaskNode id title (8 # 10) (5 # 10) (Some 0%Q) active.

(** The [set] at the end of both branches; [tasks0] is the task list read
    when [selectAction] was called. *)
Definition selectAction_settle (tasks0 : list TaskNode) (t : TaskNode)
    (s : CanvasStore) : CanvasStore :=
  set_coreState core_acting
    (set_state idle (set_aiResponse None (set_tasks (tasks0 ++ [t]) s))).

Definition findAction (actionId : string) (r : option AIResponse)
  : option SuggestedAction :=
  r ≫= fun r =>
    List.find (fun a => bool_decide (action_id a = actionId)) (actions r).

Definition selectAction (actionId : string) (s : CanvasStore)
  : CanvasStore :=
  let tasks0 := tasks s in
  match findAction actionId (aiResponse s) with
  | Some action =>
      match api_createTask
              (mkCreateTaskBody (action_title action)
                                (estimatedMinutes action)) with
      | inr taskResponse =>
          selectAction_settle tasks0
            (newTask (Js.or_string (created_id taskResponse) actionId)
                     (action_title action)) s
      | inl _ =>
          selectAction_settle tasks0
            (newTask actionId (action_title action)) s
      end
  | None => s
  end.

(** The callback of [setTimeout(..., 2000)]. *)
Definition selectAction_timer (s : CanvasStore) : CanvasStore :=
  set_coreState core_idle s.

(** *** completeTask *)

Definition markCompleting (t : TaskNode) : TaskNode :=
  mkTaskNode (task_id t) (task_title t) (task_priority t) (task_urgency t)
             (task_age t) completing.

(** The update made before the backend is called. *)
Definition completeTask_begin (taskId : string) (s : CanvasStore)
  : CanvasStore :=
  set_tasks
    (map (fun t => if decide (task_id t = taskId) then markCompleting t
                   else t)
         (tasks s)) s.

(** [await api.completeTask(taskId)] follows; a rejection is logged and
    dropped, so the outcome of the call does not reach the store.  Then the
    callback of [setTimeout(..., 800)] runs: it filters the list read when
    [completeTask] was called. *)
Definition completeTask_timer (tasks0 : list TaskNode) (taskId : string)
    (s : CanvasStore) : CanvasStore :=
  set_coreState core_acting
    (set_tasks
       (List.filter (fun t => negb (bool_decide (task_id t = taskId)))
                    tasks0) s).

Definition completeTask_timer2 (s : CanvasStore) : CanvasStore :=
  set_coreState core_idle s.

(** *** fetchTasks *)

Definition toTaskNode (now : Z) (t : BackendTask) : TaskNode :=
  mkTaskNode (backend_id t) (backend_title t)
             (Js.or_number (backend_priority t) (1 # 2))
             (calculateUrgency now t)
             (calculateAge now (backend_created_at t))
             (if bool_decide (backend_status t = "completed")
              then completing else active).

Definition fetchTasks (now : Z) (s : CanvasStore) : CanvasStore :=
  match api_getTasks with
  | inr data => set_tasks (map (toTaskNode now) (default [] data)) s
  | inl _ => s
  end.

(** *** The store as a state machine

    One event is one run of synchronous store code: an action called by
    the interface, or a timer callback with the values its closure holds. *)

Inductive Event : Type :=
| EvSetState (st : CanvasState)
| EvSetUrgency (u : Q)
| EvSetError (e : option string)
| EvOpenInput
| EvCloseInput
| EvSubmitInput (text : string) (source : InputSource)
| EvStartListening
| EvStopListening
| EvSetTranscript (t : string)
| EvSetAIResponse (r : option AIResponse)
| EvSelectAction (actionId : string)
| EvSelectActionTimer
| EvSetTasks (ts : list TaskNode)
| EvAddTask (t : TaskNode)
| EvCompleteTask (taskId : string)
| EvCompleteTaskTimer (tasks0 : list TaskNode) (taskId : string)
| EvCompleteTaskTimer2
| EvFetchTasks
| EvShowReflection (insight : string)
| EvShowIdentity
| EvDismissOverlay
| EvRecordInteraction
| EvCheckSilence.

Definition step (now : Z) (ev : Event) (s : CanvasStore) : CanvasStore :=
  match ev with
  | EvSetState st => setState now st s
  | EvSetUrgency u => setUrgency u s
  | EvSetError e => setError e s
  | EvOpenInput => openInput now s
  | EvCloseInput => closeInput s
  | EvSubmitInput text source => submitInput now text source s
  | EvStartListening => startListening now s
  | EvStopListening => stopListening now s
  | EvSetTranscript t => setTranscript t s
  | EvSetAIResponse r => setAIResponse r s
  | EvSelectAction actionId => selectAction actionId s
  | EvSelectActionTimer => selectAction_timer s
  | EvSetTasks ts => setTasks ts s
  | EvAddTask t => addTask t s
  | EvCompleteTask taskId => completeTask_begin taskId s
  | EvCompleteTaskTimer tasks0 taskId => completeTask_timer tasks0 taskId s
  | EvCompleteTaskTimer2 => completeTask_timer2 s
  | EvFetchTasks => fetchTasks now s
  | EvShowReflection insight => showReflection insight s
  | EvShowIdentity => showIdentity now s
  | EvDismissOverlay => dismissOverlay s
  | EvRecordInteraction => recordInteraction now s
  | EvCheckSilence => checkSilence now s
  end.

(** A run: events with the clock reading at each of them. *)
Fixpoint run (evs : list (Z * Event)) (s : CanvasStore) : CanvasStore :=
  match evs with
  | [] => s
  | (now, ev) :: evs' => run evs' (step now ev s)
  end.

End Actions.

End Canvas.

(** ** Orbital layout ([canvas/TaskOrbits.tsx])

    [positionedTasks] places a task at polar coordinates around the centre
    of the canvas.  The radius is the rational part of that computation; the
    angle, the jitter and the resulting [x] and [y] go through [Math.cos] and
    [Math.sin] and are not part of this model. *)

Module Orbits.

Record CanvasSize : Type := mkCanvasSize {
  width : Q;
  height : Q
}.

Definition minRadius : Q := 120.

Definition maxRadius (canvasSize : CanvasSize) : Q :=
  (Qmin (width canvasSize) (height canvasSize) * (4 # 10))%Q.

(** [radius] inside the callback of [tasks.map]. *)
Definition radius (canvasSize : CanvasSize) (task : Canvas.TaskNode) : Q :=
  (minRadius
   + (1 - Canvas.task_priority task) * (maxRadius canvasSize - minRadius))%Q.

Definition radii (canvasSize : CanvasSize) (tasks : list Canvas.TaskNode)
  : list Q :=
  map (radius canvasSize) tasks.

End Orbits.

(** ** Tasks of the backend ([types/index.ts]) *)

Module Tasks.

Inductive TaskStatus : Type :=
| pending | in_progress | completed | abandoned | deferred.

Inductive Level : Type := low | medium | high.

#[global] Instance TaskStatus_eq_dec : EqDecision TaskStatus.
Proof. solve_decision. Defined.

Record Task : Type := mkTask {
  id : string;
  title : string;
  description : option string;
  status : TaskStatus;
  priority : Q;
  orbital_distance : Q;
  estimated_minutes : option Q;
  actual_minutes : option Q;
  energy_required : Level;
  focus_required : Level;
  context_tags : list string;
  scheduled_for : option string;
  due_date : option string;
  created_at : string;
  started_at : option string;
  completed_at : option string;
  goal_id : option string
}.

End Tasks.

(** ** The orbit view ([TaskOrbit] component) *)

Module OrbitView.

(** The props of one [OrbitingTask] element. *)
Record OrbitingTaskProps : Type := mkProps {
  key : string;
  task : Tasks.Task;
  index : nat;
  total : nat
}.

(** [None] is the [null] the component returns for an empty list;
    otherwise the children of the surrounding [div], in order. *)
Definition TaskOrbit (tasks : list Tasks.Task)
  : option (list OrbitingTaskProps) :=
  if decide (length tasks = 0%nat) then None
  else Some (imap (fun index task =>
                     mkProps (Tasks.id task) task index
                             (Nat.min (length tasks) 8))
                  (take 8 tasks)).

(** The distance from the centre at which [OrbitingTask] draws its task. *)
Definition baseRadius : Q := 180.

Definition orbitingRadius (p : OrbitingTaskProps) : Q :=
  (baseRadius + Tasks.orbital_distance (task p) * 40)%Q.

End OrbitView.

(** ** The task store ([useTaskStore])

    JavaScript arrays are objects with identity: [get().tasks] hands out the
    very array the store holds, and [Array.prototype.sort] sorts its
    receiver in place.  Arrays therefore live in a heap and are passed
    around as references. *)

Module TaskStore.

Import Tasks.

Abbreviation ArrayRef := positive.

Abbreviation Heap := (gmap positive (list Task)).

Record TaskState : Type := mkTaskState {
  tasks : ArrayRef;
  focusedTask : option Task;
  isLoading : bool;
  error : option string
}.

(** A new array object. *)
Definition alloc (items : list Task) (h : Heap) : ArrayRef * Heap :=
  let r := fresh (dom h) in (r, <[r := items]> h).

(** [[...a]]: a new array with the elements of [a]. *)
Definition Array_spread (a : ArrayRef) (h : Heap)
  : option (ArrayRef * Heap) :=
  items ← h !! a; Some (alloc items h).

(** [a.filter(f)]: a new array. *)
Definition Array_filter (f : Task -> bool) (a : ArrayRef) (h : Heap)
  : option (ArrayRef * Heap) :=
  items ← h !! a; Some (alloc (List.filter f items) h).

(** [a.sort(compareFn)] is stable and sorts [a] itself; it returns [a].
    An element moves right past its neighbour exactly when [compareFn] is
    positive on the pair. *)
Fixpoint sort_insert (compareFn : Task -> Task -> Q) (x : Task)
    (sorted : list Task) : list Task :=
  match sorted with
  | [] => [x]
  | y :: sorted' =>
      if Js.Qltb 0 (compareFn x y) then y :: sort_insert compareFn x sorted'
      else x :: sorted
  end.

Definition sorted_items (compareFn : Task -> Task -> Q) (items : list Task)
  : list Task :=
  foldr (sort_insert compareFn) [] items.

Definition Array_sort (compareFn : Task -> Task -> Q) (a : ArrayRef)
    (h : Heap) : option (ArrayRef * Heap) :=
  items ← h !! a; Some (a, <[a := sorted_items compareFn items]> h).

Definition isOpen (t : Task) : bool :=
  bool_decide (status t = pending) || bool_decide (status t = in_progress).

Definition byOrbitalDistance (a b : Task) : Q :=
  (orbital_distance a - orbital_distance b)%Q.

(** [getPendingTasks]. *)
Definition getPendingTasks (st : TaskState) (h : Heap)
  : option (ArrayRef * Heap) :=
  Array_filter isOpen (tasks st) h.

(** [getTasksByOrbitalDistance]: the returned reference with the heap the
    call leaves behind.  [None] only for a store whose array is not in the
    heap, which no JavaScript state is. *)
Definition getTasksByOrbitalDistance (st : TaskState) (h : Heap)
  : option (ArrayRef * Heap) :=
  '(copy, h1) ← Array_spread (tasks st) h;
  '(kept, h2) ← Array_filter isOpen copy h1;
  Array_sort byOrbitalDistance kept h2.

End TaskStore.

(** ** Offline storage and the sync pass of [useOffline]

    The queue lives in two IndexedDB object stores.  [pending_intents] has
    key path [id] with a key generator, [pending_tasks] has key path [id],
    the task's own id.  An object store holds at most one record per key;
    here it is the list that [getAll] returns.  IndexedDB requests are taken
    to succeed: a failing disk is outside the model. *)

Module Offline.

Definition Json : Type := string.

Record PendingIntent : Type := mkPendingIntent {
  intent_id : option N;
  text : string;
  context : option Json;
  createdAt : string
}.

Inductive TaskAction : Type := start | complete | abandon | pause.

Definition action_name (a : TaskAction) : string :=
  match a with
  | start => "start"
  | complete => "complete"
  | abandon => "abandon"
  | pause => "pause"
  end.

Record PendingTask : Type := mkPendingTask {
  task_id : string;
  action : TaskAction;
  data : option Json;
  task_createdAt : string
}.

#[global] Instance TaskAction_eq_dec : EqDecision TaskAction.
Proof. solve_decision. Defined.
#[global] Instance PendingIntent_eq_dec : EqDecision PendingIntent.
Proof. solve_decision. Defined.
#[global] Instance PendingTask_eq_dec : EqDecision PendingTask.
Proof. solve_decision. Defined.

(** *** IndexedDB *)

(** A request object.  Its [result] reaches the program through the
    [onsuccess] callback; the request itself is neither a promise nor
    iterable. *)
Record IDBRequest (A : Type) : Type := mkIDBRequest {
  result : A
}.
Arguments mkIDBRequest {A} _.
Arguments result {A} _.

Record IntentStore : Type := mkIntentStore {
  intent_records : list PendingIntent;
  keyGenerator : N
}.

Record Database : Type := mkDatabase {
  pending_intents : IntentStore;
  pending_tasks : list PendingTask
}.

(** The database that [onupgradeneeded] creates: a key generator starts
    at 1. *)
Definition emptyDatabase : Database :=
  mkDatabase (mkIntentStore [] 1) [].

Definition intents_getAll (db : Database) : IDBRequest (list PendingIntent) :=
  mkIDBRequest (intent_records (pending_intents db)).

Definition intents_add (record : PendingIntent) (db : Database)
  : IDBRequest N * Database :=
  let store := pending_intents db in
  let k := keyGenerator store in
  let stored :=
    mkPendingIntent (Some k) (text record) (context record)
                    (createdAt record) in
  (mkIDBRequest k,
   mkDatabase (mkIntentStore (intent_records store ++ [stored]) (k + 1))
              (pending_tasks db)).

Definition intents_delete (k : N) (db : Database) : Database :=
  let store := pending_intents db in
  mkDatabase
    (mkIntentStore
       (List.filter (fun r => negb (bool_decide (intent_id r = Some k)))
                    (intent_records store))
       (keyGenerator store))
    (pending_tasks db).

Definition tasks_getAll (db : Database) : IDBRequest (list PendingTask) :=
  mkIDBRequest (pending_tasks db).

Definition tasks_delete (k : string) (db : Database) : Database :=
  mkDatabase (pending_intents db)
    (List.filter (fun r => negb (bool_decide (task_id r = k)))
                 (pending_tasks db)).

(** [put] replaces the record that has the same key. *)
Definition tasks_put (record : PendingTask) (db : Database) : Database :=
  mkDatabase (pending_intents db)
    (List.filter (fun r => negb (bool_decide (task_id r = task_id record)))
                 (pending_tasks db) ++ [record]).

(** *** The [OfflineStorage] class

    Each method wraps one request in a promise that resolves, from
    [onsuccess], with the request's [result]. *)

Definition addPendingIntent (text : string) (context : option Json)
    (nowISO : string) (db : Database) : N * Database :=
  let '(request, db') :=
    intents_add (mkPendingIntent None text context nowISO) db in
  (result request, db').

Definition getPendingIntents (db : Database) : list PendingIntent :=
  result (intents_getAll db).

Definition removePendingIntent (id : N) (db : Database) : Database :=
  intents_delete id db.

Definition addPendingTask (task : PendingTask) (nowISO : string)
    (db : Database) : Database :=
  tasks_put (mkPendingTask (task_id task) (action task) (data task) nowISO)
            db.

Definition getPendingTasks (db : Database) : list PendingTask :=
  result (tasks_getAll db).

Definition removePendingTask (id : string) (db : Database) : Database :=
  tasks_delete id db.

Definition getPendingSyncCount (db : Database) : nat * nat :=
  (length (getPendingIntents db), length (getPendingTasks db)).

(** *** The network *)

Inductive Body : Type :=
| IntentBody (text : string) (context : option Json)
| JsonBody (data : option Json).

Record PostRequest : Type := mkPost {
  post_url : string;
  post_body : Body
}.

(** One request of a sync pass and whether the backend accepted it. *)
Record Exchange : Type := mkExchange {
  sent : PostRequest;
  accepted : bool
}.

Definition intentRequest (intent : PendingIntent) : PostRequest :=
  mkPost "/orbit/process" (IntentBody (text intent) (context intent)).

Definition taskRequest (task : PendingTask) : PostRequest :=
  mkPost ("/executor/tasks/" +:+ task_id task +:+ "/"
          +:+ action_name (action task))
         (JsonBody (data task)).

(** [if (intent.id)]: [undefined] and [0] are falsy. *)
Definition truthy_id (id : option N) : option N :=
  match id with
  | Some 0%N | None => None
  | Some k => Some k
  end.

(** *** The state of the [useOffline] hook *)

Record OfflineState : Type := mkOfflineState {
  isOnline : bool;
  hasPendingSync : bool;
  pendingCount : nat * nat;
  isSyncing : bool;
  lastSyncedAt : option Z
}.

Record SyncResult (S : Type) : Type := mkSyncResult {
  server_after : S;
  database_after : Database;
  exchanges : list Exchange
}.
Arguments mkSyncResult {S} _ _ _.
Arguments server_after {S} _.
Arguments database_after {S} _.
Arguments exchanges {S} _.

Section SyncPass.

(** The backend is a state machine of its own: [api_post] is [api.post],
    which resolves for a 2xx answer and rejects otherwise. *)
Variable Server : Type.
Variable api_post : Server -> PostRequest -> Js.Settled unit * Server.

(** The first [for] loop of [syncPendingData]. *)
Fixpoint syncIntents (pending : list PendingIntent) (srv : Server)
    (db : Database) : SyncResult Server :=
  match pending with
  | [] => mkSyncResult srv db []
  | intent :: rest =>
      let '(answer, srv') := api_post srv (intentRequest intent) in
      match answer with
      | inr _ =>
          let db' :=
            match truthy_id (intent_id intent) with
            | Some id => removePendingIntent id db
            | None => db
            end in
          let r := syncIntents rest srv' db' in
          mkSyncResult (server_after r) (database_after r)
                       (mkExchange (intentRequest intent) true
                        :: exchanges r)
      | inl _ =>
          let r := syncIntents rest srv' db in
          mkSyncResult (server_after r) (database_after r)
                       (mkExchange (intentRequest intent) false
                        :: exchanges r)
      end
  end.

(** The second [for] loop of [syncPendingData]. *)
Fixpoint syncTasks (pending : list PendingTask) (srv : Server)
    (db : Database) : SyncResult Server :=
  match pending with
  | [] => mkSyncResult srv db []
  | task :: rest =>
      let '(answer, srv') := api_post srv (taskRequest task) in
      match answer with
      | inr _ =>
          let r := syncTasks rest srv' (removePendingTask (task_id task) db) in
          mkSyncResult (server_after r) (database_after r)
                       (mkExchange (taskRequest task) true :: exchanges r)
      | inl _ =>
          let r := syncTasks rest srv' db in
          mkSyncResult (server_after r) (database_after r)
                       (mkExchange (taskRequest task) false :: exchanges r)
      end
  end.

(** [syncPendingData]: the returned boolean, the hook state, and the
    intents' and tasks' passes. *)
Definition syncPendingData (navigator_onLine : bool) (now : Z)
    (st : OfflineState) (srv : Server) (db : Database)
  : bool * OfflineState * SyncResult Server * SyncResult Server :=
  if negb navigator_onLine
  then (false, st, mkSyncResult srv db [], mkSyncResult srv db [])
  else
    let pendingIntents := getPendingIntents db in
    let r1 := syncIntents pendingIntents srv db in
    let pendingTasks := getPendingTasks (database_after r1) in
    let r2 := syncTasks pendingTasks (server_after r1) (database_after r1) in
    let newPendingCount := getPendingSyncCount (database_after r2) in
    (true,
     mkOfflineState (isOnline st)
       (bool_decide (0 < fst newPendingCount)%nat
        || bool_decide (0 < snd newPendingCount)%nat)
       newPendingCount false (Some now),
     r1, r2).

End SyncPass.

End Offline.

(** ** The service worker ([public/sw.js]) *)

Module ServiceWorker.

Import Offline.

Definition CACHE_VERSION : string := "orbit-v1".
Definition STATIC_CACHE : string := CACHE_VERSION +:+ "-static".
Definition DYNAMIC_CACHE : string := CACHE_VERSION +:+ "-dynamic".
Definition OFFLINE_CACHE : string := CACHE_VERSION +:+ "-offline".

Definition OFFLINE_CAPABLE_ROUTES : list string :=
  [ "/api/v1/intent/active";
    "/api/v1/planner/tasks/today";
    "/api/v1/memory/recent" ].

(** *** Requests, responses, caches *)

(** [pathname] is the path of [new URL(request.url)]. *)
Record Request : Type := mkRequest {
  method : string;
  url : string;
  pathname : string;
  mode : string
}.

Record Response : Type := mkResponse {
  status : Z;
  statusText : string;
  headers : gmap string string;
  body : string
}.

(** [response.ok]: a status from 200 to 299. *)
Definition ok (r : Response) : bool :=
  (200 <=? status r)%Z && (status r <=? 299)%Z.

(** The cache storage: named caches in the order of their creation, each
    mapping the URL of a GET request to the stored response. *)
Definition CacheStorage : Type := list (string * gmap string Response).

(** [caches.match]: the first cache that has the URL answers. *)
Fixpoint caches_match (u : string) (cs : CacheStorage) : option Response :=
  match cs with
  | [] => None
  | (_, cache) :: cs' =>
      match cache !! u with
      | Some r => Some r
      | None => caches_match u cs'
      end
  end.

(** [caches.open(name)] followed by [cache.put]: the cache is created when
    it does not exist. *)
Fixpoint cache_put (name u : string) (r : Response) (cs : CacheStorage)
  : CacheStorage :=
  match cs with
  | [] => [(name, {[ u := r ]})]
  | (n, cache) :: cs' =>
      if bool_decide (n = name) then (n, <[ u := r ]> cache) :: cs'
      else (n, cache) :: cache_put name u r cs'
  end.

(** What a strategy does besides answering. *)
Inductive Effect : Type :=
| CacheMatch (u : string)
| NetFetch (u : string)
| CachePut (name u : string).

#[global] Instance Effect_eq_dec : EqDecision Effect.
Proof. solve_decision. Defined.

(** The promise handed to [respondWith]; [inr None] is [undefined]. *)
Record Served : Type := mkServed {
  answer : Js.Settled (option Response);
  caches_after : CacheStorage;
  effects : list Effect
}.

(** *** [isStaticAsset] *)

Definition lower_ascii (c : ascii) : ascii :=
  let n := nat_of_ascii c in
  if (65 <=? n)%nat && (n <=? 90)%nat then ascii_of_nat (n + 32) else c.

Fixpoint lower (s : string) : string :=
  match s with
  | EmptyString => EmptyString
  | String c s' => String (lower_ascii c) (lower s')
  end.

Definition endsWith (s suffix : string) : bool :=
  let n := String.length s in
  let m := String.length suffix in
  (m <=? n)%nat && bool_decide (String.substring (n - m) m s = suffix).

Definition static_extensions : list string :=
  [ "js"; "css"; "png"; "jpg"; "jpeg"; "gif"; "svg"; "ico";
    "woff"; "woff2"; "ttf"; "eot" ].

(** The regular expression ends in [$] and carries the [i] flag. *)
Definition isStaticAsset (pathname : string) : bool :=
  existsb (fun ext => endsWith (lower pathname) ("." +:+ ext))
          static_extensions.

Definition includes (s sub : string) : bool :=
  bool_decide (is_Some (String.index 0 sub s)).

Section Fetch.

(** The network: [fetch(request)] resolves with a response or rejects. *)
Variable fetch : Request -> Js.Settled Response.

Definition offlineText : Response :=
  mkResponse 503 "" ∅ "Offline".

(** A string literal of JSON text. *)
Definition quoted (s : string) : string :=
  let quote := String (ascii_of_nat 34) EmptyString in
  quote +:+ s +:+ quote.

Definition offlineJson : Response :=
  mkResponse 503 "" {[ "Content-Type" := "application/json" ]}
    ("{" +:+ quoted "error" +:+ ":" +:+ quoted "offline" +:+ ","
     +:+ quoted "message" +:+ ":"
     +:+ quoted "You are offline. This data will sync when connected."
     +:+ "," +:+ quoted "cached" +:+ ":false}").

(** Strategy: cache first (static assets). *)
Definition cacheFirst (request : Request) (cs : CacheStorage) : Served :=
  match caches_match (url request) cs with
  | Some cached =>
      mkServed (inr (Some cached)) cs [CacheMatch (url request)]
  | None =>
      match fetch request with
      | inr response =>
          if ok response
          then mkServed (inr (Some response))
                 (cache_put STATIC_CACHE (url request) response cs)
                 [CacheMatch (url request); NetFetch (url request);
                  CachePut STATIC_CACHE (url request)]
          else mkServed (inr (Some response)) cs
                 [CacheMatch (url request); NetFetch (url request)]
      | inl _ =>
          mkServed (inr (Some offlineText)) cs
            [CacheMatch (url request); NetFetch (url request)]
      end
  end.

(** Strategy: network first (default). *)
Definition networkFirst (request : Request) (cs : CacheStorage) : Served :=
  match fetch request with
  | inr response =>
      if ok response
      then mkServed (inr (Some response))
             (cache_put DYNAMIC_CACHE (url request) response cs)
             [NetFetch (url request); CachePut DYNAMIC_CACHE (url request)]
      else mkServed (inr (Some response)) cs [NetFetch (url request)]
  | inl error =>
      match caches_match (url request) cs with
      | Some cached =>
          mkServed (inr (Some cached)) cs
            [NetFetch (url request); CacheMatch (url request)]
      | None =>
          mkServed (inl error) cs
            [NetFetch (url request); CacheMatch (url request)]
      end
  end.

(** Strategy: network first with offline fallback (navigations). *)
Definition networkFirstWithOfflineFallback (request : Request)
    (cs : CacheStorage) : Served :=
  match fetch request with
  | inr response =>
      if ok response
      then mkServed (inr (Some response))
             (cache_put DYNAMIC_CACHE (url request) response cs)
             [NetFetch (url request); CachePut DYNAMIC_CACHE (url request)]
      else mkServed (inr (Some response)) cs [NetFetch (url request)]
  | inl _ =>
      match caches_match (url request) cs with
      | Some cached =>
          mkServed (inr (Some cached)) cs
            [NetFetch (url request); CacheMatch (url request)]
      | None =>
          mkServed (inr (caches_match "/offline.html" cs)) cs
            [NetFetch (url request); CacheMatch (url request);
             CacheMatch "/offline.html"]
      end
  end.

(** API requests, with offline support. *)
Definition handleApiRequest (request : Request) (cs : CacheStorage)
  : Served :=
  let isOfflineCapable :=
    existsb (fun route => includes (pathname request) route)
            OFFLINE_CAPABLE_ROUTES in
  match fetch request with
  | inr response =>
      if ok response && isOfflineCapable
      then mkServed (inr (Some response))
             (cache_put OFFLINE_CACHE (url request) response cs)
             [NetFetch (url request); CachePut OFFLINE_CACHE (url request)]
      else mkServed (inr (Some response)) cs [NetFetch (url request)]
  | inl _ =>
      match caches_match (url request) cs with
      | Some cached =>
          mkServed
            (inr (Some (mkResponse (status cached) (statusText cached)
                          (<[ "X-Orbit-Offline" := "true" ]> (headers cached))
                          (body cached))))
            cs [NetFetch (url request); CacheMatch (url request)]
      | None =>
          mkServed (inr (Some offlineJson)) cs
            [NetFetch (url request); CacheMatch (url request)]
      end
  end.

(** The [fetch] event listener.  [None]: the listener returns without
    [respondWith] and the browser handles the request itself. *)
Definition onFetch (request : Request) (cs : CacheStorage)
  : option Served :=
  if negb (bool_decide (method request = "GET")) then None
  else if String.prefix "/api/" (pathname request)
  then Some (handleApiRequest request cs)
  else if isStaticAsset (pathname request)
  then Some (cacheFirst request cs)
  else if bool_decide (mode request = "navigate")
  then Some (networkFirstWithOfflineFallback request cs)
  else Some (networkFirst request cs).

End Fetch.

(** *** Background sync *)

(** A value as the sync functions hold it after [await store.getAll()]:
    the worker uses the IndexedDB interface directly, and awaiting a
    request, which is not a promise, yields the request itself. *)
Inductive Value (A : Type) : Type :=
| ArrayValue (items : list A)
| RequestValue (request : IDBRequest (list A)).
Arguments ArrayValue {A} _.
Arguments RequestValue {A} _.

(** [await v] for a value that is not a promise. *)
Definition await {A : Type} (v : A) : A := v.

(** [for (const x of v)] asks [v] for its iterator. *)
Definition iterate {A : Type} (name : string) (v : Value A)
  : Js.Thrown + list A :=
  match v with
  | ArrayValue items => inr items
  | RequestValue _ => inl (Js.TypeError (name +:+ " is not iterable"))
  end.

Definition sw_intentRequest (intent : PendingIntent) : PostRequest :=
  mkPost "/api/v1/orbit/process" (JsonBody None).

Definition sw_taskRequest (task : PendingTask) : PostRequest :=
  mkPost ("/api/v1/executor/tasks/" +:+ task_id task +:+ "/"
          +:+ action_name (action task))
         (JsonBody (data task)).

Section BackgroundSync.

Variable Server : Type.

(** [fetch(url, { method: 'POST', ... })]. *)
Variable fetch_post : Server -> PostRequest -> Js.Settled Response * Server.

(** The body of the loop of [syncOfflineIntents], over an array. *)
Fixpoint syncIntentsLoop (intents : list PendingIntent) (srv : Server)
    (db : Database) : SyncResult Server :=
  match intents with
  | [] => mkSyncResult srv db []
  | intent :: rest =>
      let '(answer, srv') := fetch_post srv (sw_intentRequest intent) in
      let accepted :=
        match answer with inr response => ok response | inl _ => false end in
      let db' :=
        match accepted, intent_id intent with
        | true, Some id => intents_delete id db
        | _, _ => db
        end in
      let r := syncIntentsLoop rest srv' db' in
      mkSyncResult (server_after r) (database_after r)
                   (mkExchange (sw_intentRequest intent) accepted
                    :: exchanges r)
  end.

Fixpoint syncTasksLoop (tasks : list PendingTask) (srv : Server)
    (db : Database) : SyncResult Server :=
  match tasks with
  | [] => mkSyncResult srv db []
  | task :: rest =>
      let '(answer, srv') := fetch_post srv (sw_taskRequest task) in
      let accepted :=
        match answer with inr response => ok response | inl _ => false end in
      let db' := if accepted then tasks_delete (task_id task) db else db in
      let r := syncTasksLoop rest srv' db' in
      mkSyncResult (server_after r) (database_after r)
                   (mkExchange (sw_taskRequest task) accepted :: exchanges r)
  end.

(** [syncOfflineIntents]: how the promise settles, and the pass. *)
Definition syncOfflineIntents (srv : Server) (db : Database)
  : Js.Settled unit * SyncResult Server :=
  let intents := await (RequestValue (intents_getAll db)) in
  match iterate "intents" intents with
  | inr items => (inr tt, syncIntentsLoop items srv db)
  | inl e => (inl e, mkSyncResult srv db [])
  end.

Definition syncOfflineTasks (srv : Server) (db : Database)
  : Js.Settled unit * SyncResult Server :=
  let tasks := await (RequestValue (tasks_getAll db)) in
  match iterate "tasks" tasks with
  | inr items => (inr tt, syncTasksLoop items srv db)
  | inl e => (inl e, mkSyncResult srv db [])
  end.

(** The [sync] event listener. *)
Definition onSync (tag : string) (srv : Server) (db : Database)
  : Js.Settled unit * SyncResult Server :=
  if bool_decide (tag = "sync-intents") then syncOfflineIntents srv db
  else if bool_decide (tag = "sync-tasks") then syncOfflineTasks srv db
  else (inr tt, mkSyncResult srv db []).

End BackgroundSync.

End ServiceWorker.

(** ** How a task node is drawn ([canvas/TaskOrbits.tsx]) *)

Module OrbitNodes.

Import Canvas.



(** [nodeSize] of [TaskNodeComponent]. *)
Definition nodeSize (task : TaskNode) : Q :=
  (12 + task_priority task * 8)%Q.

End OrbitNodes.

(** ** The actions of the task store ([useTaskStore])

    [set] with a function reads the store at the time of the call; the
    [map] and the spread inside it build a new array, which then becomes
    the array of the store. *)

Module TaskStoreActions.

Import Tasks TaskStore.

Record TaskCreate : Type := mkTaskCreate {
  create_title : string;
  create_description : option string;
  create_estimated_minutes : option Q;
  create_energy_required : option string;
  create_focus_required : option string;
  create_scheduled_for : option string;
  create_due_date : option string;
  create_goal_id : option string
}.

Definition set_tasks (v : ArrayRef) (st : TaskState) : TaskState :=
  mkTaskState v (focusedTask st) (isLoading st) (error st).
Definition set_focusedTask (v : option Task) (st : TaskState) : TaskState :=
  mkTaskState (tasks st) v (isLoading st) (error st).
Definition set_isLoading (v : bool) (st : TaskState) : TaskState :=
  mkTaskState (tasks st) (focusedTask st) v (error st).
Definition set_error (v : option string) (st : TaskState) : TaskState :=
  mkTaskState (tasks st) (focusedTask st) (isLoading st) v.

(** [error instanceof Error ? error.message : fallback]. *)
Definition errorMessage (e : Js.Thrown) (fallback : string) : string :=
  default fallback (Js.instanceofError e).

(** [a.map(f)]: a new array. *)
Definition Array_map (f : Task -> Task) (a : ArrayRef) (h : Heap)
  : option (ArrayRef * Heap) :=
  items ← h !! a; Some (alloc (f <$> items) h).

(** [[...a, t]]: a new array. *)
Definition Array_append (a : ArrayRef) (t : Task) (h : Heap)
  : option (ArrayRef * Heap) :=
  items ← h !! a; Some (alloc (items ++ [t]) h).

(** The callback [t => t.id === taskId ? response.data : t]. *)
Definition replaceById (taskId : string) (data : Task) (t : Task) : Task :=
  if decide (id t = taskId) then data else t.

(** [state.focusedTask?.id === taskId ? null : state.focusedTask]. *)
Definition unfocus (taskId : string) (focused : option Task) : option Task :=
  match focused with
  | Some t => if decide (id t = taskId) then None else Some t
  | None => None
  end.

Section Actions.

(** The backend behind [apiClient]; a rejection carries the [Error] that
    the response interceptor builds. *)
Variable get_tasks : Js.Settled (list Task).
Variable post_task : TaskCreate -> Js.Settled Task.
Variable patch_status : string -> TaskStatus -> Js.Settled Task.
Variable post_start : string -> Js.Settled Task.
Variable post_complete : string -> Js.Settled Task.
Variable post_abandon : string -> option string -> Js.Settled Task.

Definition fetchTasks (st : TaskState) (h : Heap) : TaskState * Heap :=
  let st1 := set_isLoading true st in
  match get_tasks with
  | inr data =>
      let '(r, h') := alloc data h in
      (set_isLoading false (set_tasks r st1), h')
  | inl e =>
      (set_isLoading false
         (set_error (Some (errorMessage e "Failed to fetch tasks")) st1), h)
  end.

(** [createTask]: the returned task ([None] is [null]), the store and the
    heap. *)
Definition createTask (data : TaskCreate) (st : TaskState) (h : Heap)
  : option (option Task * TaskState * Heap) :=
  match post_task data with
  | inr task =>
      '(r, h') ← Array_append (tasks st) task h;
      Some (Some task, set_tasks r st, h')
  | inl e =>
      Some (None,
            set_error (Some (errorMessage e "Failed to create task")) st, h)
  end.

Definition updateTaskStatus (taskId : string) (status : TaskStatus)
    (st : TaskState) (h : Heap) : option (TaskState * Heap) :=
  match patch_status taskId status with
  | inr data =>
      '(r, h') ← Array_map (replaceById taskId data) (tasks st) h;
      Some (set_tasks r st, h')
  | inl e =>
      Some (set_error (Some (errorMessage e "Failed to update task")) st, h)
  end.

Definition setFocusedTask (task : option Task) (st : TaskState)
  : TaskState :=
  set_focusedTask task st.

Definition startTask (taskId : string) (st : TaskState) (h : Heap)
  : option (TaskState * Heap) :=
  match post_start taskId with
  | inr data =>
      '(r, h') ← Array_map (replaceById taskId data) (tasks st) h;
      Some (set_focusedTask (Some data) (set_tasks r st), h')
  | inl e =>
      Some (set_error (Some (errorMessage e "Failed to start task")) st, h)
  end.

Definition completeTask (taskId : string) (st : TaskState) (h : Heap)
  : option (TaskState * Heap) :=
  match post_complete taskId with
  | inr data =>
      '(r, h') ← Array_map (replaceById taskId data) (tasks st) h;
      Some (set_focusedTask (unfocus taskId (focusedTask st))
                            (set_tasks r st), h')
  | inl e =>
      Some (set_error (Some (errorMessage e "Failed to complete task")) st,
            h)
  end.

Definition abandonTask (taskId : string) (reason : option string)
    (st : TaskState) (h : Heap) : option (TaskState * Heap) :=
  match post_abandon taskId reason with
  | inr data =>
      '(r, h') ← Array_map (replaceById taskId data) (tasks st) h;
      Some (set_focusedTask (unfocus taskId (focusedTask st))
                            (set_tasks r st), h')
  | inl e =>
      Some (set_error (Some (errorMessage e "Failed to abandon task")) st,
            h)
  end.

End Actions.

End TaskStoreActions.

(** ** The cache store of [OfflineStorage]

    The object store [cache] has key path [key].  The two dates of a record
    are stored as ISO strings, which [toISOString] writes and [new Date]
    reads back without loss; they are kept here as the milliseconds they
    stand for.  The index range of [clearExpiredCache] compares the ISO
    strings, which for years of four digits is the order of the times. *)

Module OfflineCache.

Import Offline.

Record CachedData : Type := mkCachedData {
  cache_key : string;
  cache_data : Json;
  cachedAt : Z;
  expiresAt : option Z
}.

Abbreviation CacheStore := (gmap string CachedData).

(** The largest time value of a [Date]. *)
Definition maxTime : Z := 8640000000000000.

(** Rounding towards zero. *)
Definition truncate (q : Q) : Z :=
  if Qle_bool 0 q then Qfloor q else Qceiling q.

(** [new Date(t)]: the time value of the date, [None] for an invalid one
    (beyond [maxTime]). *)
Definition timeClip (t : Q) : option Z :=
  if Qle_bool (Qabs t) (inject_Z maxTime) then Some (truncate t) else None.

(** [setCache]; [now] is [new Date()].  [toISOString] of an invalid date
    throws a [RangeError] inside the promise, before anything is stored. *)
Definition setCache (key : string) (data : Json) (ttlMinutes : Q) (now : Z)
    (store : CacheStore) : Js.Settled unit * CacheStore :=
  match timeClip (inject_Z now + ttlMinutes * 60 * 1000)%Q with
  | Some expires =>
      (inr tt, <[ key := mkCachedData key data now (Some expires) ]> store)
  | None => (inl (Js.ErrorObj "Invalid time value"), store)
  end.

Definition deleteCache (key : string) (store : CacheStore) : CacheStore :=
  delete key store.

(** A record is past its date at [now]. *)
Definition expiredAt (now : Z) (record : CachedData) : bool :=
  match expiresAt record with
  | Some expires => bool_decide (expires < now)%Z
  | None => false
  end.

(** [getCache]: the data ([None] is [null]) and the store once the
    deletion of an expired record has run. *)
Definition getCache (key : string) (now : Z) (store : CacheStore)
  : option Json * CacheStore :=
  match store !! key with
  | None => (None, store)
  | Some record =>
      if expiredAt now record then (None, deleteCache key store)
      else (Some (cache_data record), store)
  end.



End OfflineCache.

(** ** The other functions of the [useOffline] hook *)

Module OfflineHook.

Import Offline.

Definition withPending (count : nat * nat) (pending : bool)
    (st : OfflineState) : OfflineState :=
  mkOfflineState (isOnline st) pending count (isSyncing st)
                 (lastSyncedAt st).

(** [checkPending], run when the hook mounts. *)
Definition checkPending (st : OfflineState) (db : Database)
  : OfflineState :=
  let pendingCount := getPendingSyncCount db in
  withPending pendingCount
    (bool_decide (0 < pendingCount.1)%nat
     || bool_decide (0 < pendingCount.2)%nat) st.

Definition handleOffline (st : OfflineState) : OfflineState :=
  mkOfflineState false (hasPendingSync st) (pendingCount st) (isSyncing st)
                 (lastSyncedAt st).

(** [saveOfflineIntent]: the id it resolves with, the hook state and the
    database. *)
Definition saveOfflineIntent (text : string) (context : option Json)
    (nowISO : string) (st : OfflineState) (db : Database)
  : N * OfflineState * Database :=
  let '(id, db') := addPendingIntent text context nowISO db in
  (id, withPending (getPendingSyncCount db') true st, db').

Definition saveOfflineTaskAction (taskId : string) (action : TaskAction)
    (data : option Json) (nowISO : string) (st : OfflineState)
    (db : Database) : OfflineState * Database :=
  let db' := addPendingTask (mkPendingTask taskId action data nowISO)
                            nowISO db in
  (withPending (getPendingSyncCount db') true st, db').

(** The text of [OfflineIndicator]; [None] when it renders nothing. *)
Definition OfflineIndicator (st : OfflineState) : option string :=
  if isOnline st && negb (hasPendingSync st) then None
  else Some
         ((if negb (isOnline st) then "Offline" else "")
          +:+ (if isOnline st && hasPendingSync st
               then if isSyncing st then "Syncing..."
                    else pretty ((pendingCount st).1 + (pendingCount st).2)%nat
                         +:+ " pending"
               else "")).

End OfflineHook.

(** ** The other listeners of the service worker *)

Module ServiceWorkerEvents.

Import ServiceWorker.

(** The filter of the [activate] listener. *)
Definition isOldCache (key : string) : bool :=
  String.prefix "orbit-" key
  && negb (bool_decide (key = STATIC_CACHE))
  && negb (bool_decide (key = DYNAMIC_CACHE))
  && negb (bool_decide (key = OFFLINE_CACHE)).

(** [activate]: every old cache is deleted. *)
Definition onActivate (cs : CacheStorage) : CacheStorage :=
  List.filter (fun c => negb (isOldCache c.1)) cs.

(** *** Push notifications *)

Record PushData : Type := mkPushData {
  push_title : option string;
  push_body : option string;
  push_icon : option string;
  push_tag : option string;
  push_data : option string;
  push_actions : option (list string);
  push_priority : option string
}.

(** [event.data?.json()]: no data, JSON text that does not parse, a falsy
    JSON value, or a value read as an object. *)
Inductive PushPayload : Type :=
| NoPayload
| InvalidJson
| FalsyJson
| ObjectJson (data : PushData).

Record Notification : Type := mkNotification {
  notification_title : option string;
  notification_body : option string;
  notification_icon : string;
  notification_badge : string;
  notification_tag : string;
  notification_data : option string;
  notification_actions : list string;
  vibrate : list Z;
  silent : bool;
  requireInteraction : bool
}.

Definition defaultPush : PushData :=
  mkPushData (Some "ORBIT") (Some "You have a new notification")
             (Some "/icons/icon-192x192.png") None None None None.

Definition isUrgent (data : PushData) : bool :=
  bool_decide (push_priority data = Some "urgent").

Definition toNotification (data : PushData) : Notification :=
  mkNotification (push_title data) (push_body data)
    (Js.or_string (push_icon data) "/icons/icon-192x192.png")
    "/icons/badge-72x72.png"
    (Js.or_string (push_tag data) "orbit-notification")
    (push_data data)
    (default [] (push_actions data))
    (if isUrgent data then [200; 100; 200]%Z else [])
    (negb (isUrgent data))
    (isUrgent data).

(** The [push] listener.  [None]: it returns without a notification;
    [Some (inl _)]: [json()] throws; [Some (inr n)]: it calls
    [showNotification] with [n], and what is displayed is up to the
    browser. *)
Definition onPush (payload : PushPayload) (permission : string)
  : option (Js.Settled Notification) :=
  match payload with
  | InvalidJson => Some (inl (Js.ErrorObj "Unexpected token"))
  | _ =>
      let data :=
        match payload with ObjectJson d => d | _ => defaultPush end in
      if bool_decide (push_priority data = Some "low")
         && bool_decide (permission = "granted")
      then None
      else Some (inr (toNotification data))
  end.

(** *** Clicks on a notification *)

Record Client : Type := mkClient {
  client_url : string;
  has_focus : bool
}.

Inductive ClickOutcome : Type :=
| Focused (client : Client)
| Opened (targetUrl : string)
| Nothing.

(** The loop over [clientList]. *)
Fixpoint firstToFocus (targetUrl : string) (clientList : list Client)
  : option Client :=
  match clientList with
  | [] => None
  | client :: rest =>
      if bool_decide (client_url client = targetUrl) && has_focus client
      then Some client
      else firstToFocus targetUrl rest
  end.

(** The [notificationclick] listener; [url] is [notification.data.url]. *)
Definition onNotificationClick (url : option string)
    (clientList : list Client) (openWindow : bool) : ClickOutcome :=
  let targetUrl := Js.or_string url "/" in
  match firstToFocus targetUrl clientList with
  | Some client => Focused client
  | None => if openWindow then Opened targetUrl else Nothing
  end.

End ServiceWorkerEvents.

(** ** Descriptions used in the statements

    These definitions are not code of the client: they say in closed form
    what a property expects, and the properties relate them to the code. *)

Module Described.

Import Canvas.

(** The id of the task that [selectAction] adds. *)
Definition addedTaskId (actionId : string)
    (answer : Js.Settled CreatedTaskData) : string :=
  match answer with
  | inl _ => actionId
  | inr taskResponse =>
      match created_id taskResponse with
      | Some id => if decide (id = "") then actionId else id
      | None => actionId
      end
  end.

(** The message that the [catch] clause stores. *)
Definition failureMessage (e : Js.Thrown) : string :=
  match e with
  | Js.ErrorObj m | Js.TypeError m => m
  | Js.NonError => "Failed to process your thought"
  end.

(** The priority as the specification words it: the task's priority, or
    0.5 when the task has none. *)
Definition statedPriority (task : BackendTask) : Q :=
  default (1 # 2) (backend_priority task).

(** The specification's sentence about the backend id: the task added last
    carries the id of the backend's answer. *)
Definition carries_backend_id
    (api_createTask : CreateTaskBody -> Js.Settled CreatedTaskData)
    (actionId : string) (s : CanvasStore) : Prop :=
  forall a taskResponse,
    findAction actionId (aiResponse s) = Some a ->
    api_createTask (mkCreateTaskBody (action_title a) (estimatedMinutes a))
    = inr taskResponse ->
    exists t,
      last (tasks (selectAction api_createTask actionId s)) = Some t
      /\ Some (task_id t) = created_id taskResponse.

(** Non-decreasing orbital distance. *)
Definition closerOrEqual (a b : Tasks.Task) : Prop :=
  (Tasks.orbital_distance a <= Tasks.orbital_distance b)%Q.

(** The specification's sentence about the fetch strategy: a handled GET
    request that has a cached response is answered with it, and the cache
    is what the worker turns to first. *)
Definition cache_then_network
    (fetch : ServiceWorker.Request -> Js.Settled ServiceWorker.Response)
    (request : ServiceWorker.Request) (cs : ServiceWorker.CacheStorage)
  : Prop :=
  forall cached served,
    ServiceWorker.method request = "GET" ->
    ServiceWorker.caches_match (ServiceWorker.url request) cs = Some cached ->
    ServiceWorker.onFetch fetch request cs = Some served ->
    ServiceWorker.answer served = inr (Some cached)
    /\ head (ServiceWorker.effects served)
       = Some (ServiceWorker.CacheMatch (ServiceWorker.url request)).

(** What the three network-first strategies of the worker share: the
    network is asked first and its answer is served; the cache is consulted
    only after the network has failed. *)
Definition networkFirstBehaviour
    (fetch : ServiceWorker.Request -> Js.Settled ServiceWorker.Response)
    (request : ServiceWorker.Request) (cs : ServiceWorker.CacheStorage)
    (served : ServiceWorker.Served) : Prop :=
  let u := ServiceWorker.url request in
  head (ServiceWorker.effects served) = Some (ServiceWorker.NetFetch u)
  /\ (forall response,
        fetch request = inr response ->
        ServiceWorker.answer served = inr (Some response)
        /\ ServiceWorker.CacheMatch u ∉ ServiceWorker.effects served)
  /\ (forall e cached,
        fetch request = inl e ->
        ServiceWorker.caches_match u cs = Some cached ->
        ServiceWorker.effects served
        = [ServiceWorker.NetFetch u; ServiceWorker.CacheMatch u]
        /\ ServiceWorker.caches_after served = cs
        /\ exists r,
            ServiceWorker.answer served = inr (Some r)
            /\ ServiceWorker.status r = ServiceWorker.status cached
            /\ ServiceWorker.statusText r = ServiceWorker.statusText cached
            /\ ServiceWorker.body r = ServiceWorker.body cached).

(** The cache-first route of [onFetch]: a static asset outside [/api/]. *)
Definition cacheFirstRoute (request : ServiceWorker.Request) : bool :=
  negb (String.prefix "/api/" (ServiceWorker.pathname request))
  && ServiceWorker.isStaticAsset (ServiceWorker.pathname request).

(** A record of the intent store is deleted by a pass over [pending] with
    the exchanges [log] when some request of the pass was accepted and its
    intent has the key of the record. *)
Definition intentRemovedBy (pending : list Offline.PendingIntent)
    (log : list Offline.Exchange) (record : Offline.PendingIntent) : Prop :=
  exists j intent ex k,
    pending !! j = Some intent
    /\ log !! j = Some ex
    /\ Offline.accepted ex = true
    /\ Offline.truthy_id (Offline.intent_id intent) = Some k
    /\ Offline.intent_id record = Some k.

Definition taskRemovedBy (pending : list Offline.PendingTask)
    (log : list Offline.Exchange) (record : Offline.PendingTask) : Prop :=
  exists j task ex,
    pending !! j = Some task
    /\ log !! j = Some ex
    /\ Offline.accepted ex = true
    /\ Offline.task_id record = Offline.task_id task.

(** The queue that IndexedDB can hold: every intent has the key that the
    key generator gave it, a positive number below the next key, and no two
    records of a store share a key. *)
Definition queueValid (db : Offline.Database) : Prop :=
  NoDup (Offline.intent_id <$> Offline.intent_records
                                 (Offline.pending_intents db))
  /\ (forall r,
        r ∈ Offline.intent_records (Offline.pending_intents db) ->
        exists k, Offline.intent_id r = Some k
                  /\ (0 < k)%N
                  /\ (k < Offline.keyGenerator (Offline.pending_intents db))%N)
  /\ NoDup (Offline.task_id <$> Offline.pending_tasks db).

End Described.

(** ** Sample data *)

Module Samples.

Import Canvas.

Definition writeReport : SuggestedAction :=
  mkAction "a1" "Write report" (Some 30%Q).

Definition callBank : SuggestedAction :=
  mkAction "a2" "Call the bank" None.

Definition suggestion : AIResponse :=
  mkAIResponse "Two steps." [writeReport; callBank]
               (Some "80% confident") (Some "intent-7").

Definition laundry : TaskNode :=
  mkTaskNode "t1" "Laundry" (1 # 2) (1 # 2) (Some 3%Q) active.

(** A canvas that shows [suggestion] and holds one task. *)
Definition responding_store : CanvasStore :=
  mkStore responding core_acting (3 # 10) [laundry] "" false
          (Some suggestion) 1000 (5 * 60 * 1000) None.

(** The backend creates the task but its answer carries no id. *)
Definition createTask_no_id (_ : CreateTaskBody)
  : Js.Settled CreatedTaskData :=
  inr (mkCreatedTask None).

(** The backend creates the task and answers with an empty id. *)
Definition createTask_empty_id (_ : CreateTaskBody)
  : Js.Settled CreatedTaskData :=
  inr (mkCreatedTask (Some "")).

Definition createTask_ok (_ : CreateTaskBody)
  : Js.Settled CreatedTaskData :=
  inr (mkCreatedTask (Some "task-42")).

(** A task of priority zero without a due date. *)
Definition stretch : BackendTask :=
  mkBackendTask "b1" "Stretch" (Some 0%Q) "pending"
                "2026-01-01T00:00:00.000Z" None.

(** A task of priority 0.2, due at millisecond 90000000. *)
Definition taxes : BackendTask :=
  mkBackendTask "b2" "Taxes" (Some (2 # 10)) "pending"
                "2026-01-01T00:00:00.000Z" (Some "due").

Definition parse_due (d : string) : option Z :=
  if decide (d = "due") then Some 90000000%Z else None.

Definition urgent : TaskNode :=
  mkTaskNode "t2" "Ship release" 1 (9 # 10) (Some 0%Q) active.

Definition someday : TaskNode :=
  mkTaskNode "t3" "Sort photos" 0 (1 # 10) (Some 40%Q) active.

(** A window 280 pixels wide and 600 high. *)
Definition narrow : Orbits.CanvasSize := Orbits.mkCanvasSize 280 600.

(** The size [CognitiveCanvas] holds before its container is measured. *)
Definition unmeasured : Orbits.CanvasSize := Orbits.mkCanvasSize 0 0.

Definition backendTask (id : string) (status : Tasks.TaskStatus)
    (orbital_distance : Q) : Tasks.Task :=
  Tasks.mkTask id id None status (1 # 2) orbital_distance None None
               Tasks.medium Tasks.medium [] None None
               "2026-01-01T00:00:00.000Z" None None None.

Definition storedTasks : list Tasks.Task :=
  [ backendTask "far" Tasks.pending 3;
    backendTask "done" Tasks.completed 0;
    backendTask "near" Tasks.in_progress 1;
    backendTask "mid" Tasks.pending 2 ].

(** A task store whose array is object 1 of the heap. *)
Definition taskState : TaskStore.TaskState :=
  TaskStore.mkTaskState 1%positive None false None.

Definition taskHeap : gmap positive (list Tasks.Task) :=
  {[ 1%positive := storedTasks ]}.

(** A cached answer and a newer one from the network. *)
Definition activeIntentsRequest : ServiceWorker.Request :=
  ServiceWorker.mkRequest "GET" "https://orbit.app/api/v1/intent/active"
                          "/api/v1/intent/active" "cors".

Definition cachedIntents : ServiceWorker.Response :=
  ServiceWorker.mkResponse 200 "OK" ∅ "[old]".

Definition freshIntents : ServiceWorker.Response :=
  ServiceWorker.mkResponse 200 "OK" ∅ "[new]".

Definition warmCaches : ServiceWorker.CacheStorage :=
  [ (ServiceWorker.OFFLINE_CACHE,
     {[ "https://orbit.app/api/v1/intent/active" := cachedIntents ]}) ].

Definition online (_ : ServiceWorker.Request)
  : Js.Settled ServiceWorker.Response :=
  inr freshIntents.

Definition logoRequest : ServiceWorker.Request :=
  ServiceWorker.mkRequest "GET" "https://orbit.app/icons/Logo.PNG"
                          "/icons/Logo.PNG" "no-cors".

(** A queue with one intent and one task action, and a backend that
    accepts every request. *)
Definition buyMilk : Offline.PendingIntent :=
  Offline.mkPendingIntent (Some 1%N) "buy milk" None
                          "2026-01-01T00:00:00.000Z".

Definition finishReport : Offline.PendingTask :=
  Offline.mkPendingTask "task-9" Offline.complete None
                        "2026-01-01T00:00:00.000Z".

Definition queued : Offline.Database :=
  Offline.mkDatabase (Offline.mkIntentStore [buyMilk] 2) [finishReport].

Definition accepting_fetch (srv : unit) (_ : Offline.PostRequest)
  : Js.Settled ServiceWorker.Response * unit :=
  (inr (ServiceWorker.mkResponse 200 "OK" ∅ ""), srv).

Definition accepting_post (srv : unit) (_ : Offline.PostRequest)
  : Js.Settled unit * unit :=
  (inr tt, srv).

Definition hookState : Offline.OfflineState :=
  Offline.mkOfflineState true true (1%nat, 1%nat) false None.

Definition createTask_down (_ : CreateTaskBody)
  : Js.Settled CreatedTaskData :=
  inl (Js.ErrorObj "Network Error").

End Samples.

(** ** Further descriptions and sample data *)

Module MoreDescribed.

Import Canvas.

(** Events that carry data or run a timer; the interface does not change
    its mode on them. *)
Definition isDataEvent (ev : Event) : bool :=
  match ev with
  | EvSetUrgency _ | EvSetError _ | EvSetTranscript _ | EvSetAIResponse _
  | EvSelectActionTimer | EvSetTasks _ | EvAddTask _ | EvCompleteTask _
  | EvCompleteTaskTimer _ _ | EvCompleteTaskTimer2 | EvFetchTasks => true
  | _ => false
  end.



(** A valid queue whose key generator has its value from IndexedDB, which
    starts at 1 and only grows. *)
Definition queueReady (db : Offline.Database) : Prop :=
  Described.queueValid db
  /\ (0 < Offline.keyGenerator (Offline.pending_intents db))%N.

(** The entries of a pass whose request failed, in the order of the pass. *)
Definition failedEntries {A : Type} (pending : list A)
    (log : list Offline.Exchange) : list A :=
  (List.filter (fun p => negb (Offline.accepted p.2)) (zip pending log)).*1.

(** The backend accepts, or refuses, whatever it is sent. *)
Definition acceptsAll {S : Type}
    (api_post : S -> Offline.PostRequest -> Js.Settled unit * S) : Prop :=
  forall srv request, exists srv', api_post srv request = (inr tt, srv').

Definition refusesAll {S : Type}
    (api_post : S -> Offline.PostRequest -> Js.Settled unit * S) : Prop :=
  forall srv request, exists e srv', api_post srv request = (inl e, srv').



End MoreDescribed.

Module MoreSamples.

Import Canvas Samples.

Definition idle_store : CanvasStore :=
  mkStore idle core_idle (3 # 10) [laundry] "" false None 1000
          (5 * 60 * 1000) None.

Definition no_backend_tasks : Js.Settled (option (list BackendTask)) :=
  inr None.

Definition no_intent (_ : string) (_ : InputSource)
  : Js.Settled IntentData :=
  inl (Js.ErrorObj "Network Error").

Definition no_interpretation (_ : option string)
  : Js.Settled InterpretationData :=
  inl (Js.ErrorObj "Network Error").

(** Due at millisecond 90000000 like [taxes], and at 300000000. *)
Definition taxesLater : BackendTask :=
  mkBackendTask "b3" "Taxes, later" (Some (2 # 10)) "pending"
                "2026-01-01T00:00:00.000Z" (Some "later").

Definition parse_dues (d : string) : option Z :=
  if decide (d = "due") then Some 90000000%Z
  else if decide (d = "later") then Some 300000000%Z
  else None.

Definition startedTask : Tasks.Task :=
  backendTask "near" Tasks.completed 1.

Definition complete_ok (_ : string) : Js.Settled Tasks.Task :=
  inr startedTask.

Definition refusing_post (srv : unit) (_ : Offline.PostRequest)
  : Js.Settled unit * unit :=
  (inl (Js.ErrorObj "Request failed with status code 500"), srv).

Definition plainRequest : ServiceWorker.Request :=
  ServiceWorker.mkRequest "GET" "https://orbit.app/data" "/data" "cors".

Definition offline (_ : ServiceWorker.Request)
  : Js.Settled ServiceWorker.Response :=
  inl (Js.TypeError "Failed to fetch").

End MoreSamples.

(** * Properties of the canvas store *)

Module CanvasFacts.

Import Canvas Described.

Lemma checkSilence_due now s :
  silenceDue now s ->
  checkSilence now s = set_coreState core_silent (set_state silent s).
Proof.
  intros [Hidle Hlate]. unfold checkSilence.
  rewrite (bool_decide_eq_true_2 _ Hidle).
  apply Z.ltb_lt in Hlate. by rewrite Hlate.
Qed.

Lemma checkSilence_not_due now s :
  ~ silenceDue now s -> checkSilence now s = s.
Proof.
  intros Hno. unfold checkSilence.
  destruct (Z.ltb_spec (silenceThreshold s) (now - lastInteraction s))
    as [Hlate|Hearly]; [|done].
  case_bool_decide as Hidle; [|done].
  exfalso. apply Hno. by split.
Qed.

Lemma recordInteraction_state now s :
  state (recordInteraction now s)
  = if decide (state s = silent) then idle else state s.
Proof. reflexivity. Qed.

Lemma recordInteraction_not_silent now s :
  state (recordInteraction now s) <> silent.
Proof.
  rewrite recordInteraction_state. by case_decide.
Qed.

(** *** The immediate update of [completeTask] *)

Lemma markCompleting_fields t :
  task_status (markCompleting t) = completing
  /\ task_id (markCompleting t) = task_id t
  /\ task_title (markCompleting t) = task_title t
  /\ task_priority (markCompleting t) = task_priority t
  /\ task_urgency (markCompleting t) = task_urgency t
  /\ task_age (markCompleting t) = task_age t.
Proof. by destruct t. Qed.

(** C10. The update that [completeTask taskId] makes at once touches the
    task list only, keeps its length and order, gives every task whose id
    is [taskId] the status ['completing'] with its other fields as they
    were, and leaves every other task as it was. *)
Theorem completeTask_begin_frame taskId s :
  completeTask_begin taskId s = set_tasks (tasks (completeTask_begin taskId s)) s
  /\ length (tasks (completeTask_begin taskId s)) = length (tasks s)
  /\ forall i t,
      tasks s !! i = Some t ->
      exists t',
        tasks (completeTask_begin taskId s) !! i = Some t'
        /\ (task_id t = taskId ->
            task_status t' = completing
            /\ task_id t' = task_id t
            /\ task_title t' = task_title t
            /\ task_priority t' = task_priority t
            /\ task_urgency t' = task_urgency t
            /\ task_age t' = task_age t)
        /\ (task_id t <> taskId -> t' = t).
Proof.
  split; [reflexivity|]. split.
  - simpl. by rewrite length_map.
  - intros i t Hi. simpl. rewrite list_lookup_fmap, Hi. simpl.
    eexists. split; [reflexivity|].
    case_decide as Hid.
    + split; [intros _; apply markCompleting_fields | by intros Hne].
    + split; [by intros Heq | by intros _].
Qed.

Section Machine.

Variable Date_getTime : string -> option Z.
Variable String_trim : string -> string.
Variable api_createIntent : string -> InputSource -> Js.Settled IntentData.
Variable api_interpretIntent :
  option string -> Js.Settled InterpretationData.
Variable api_createTask : CreateTaskBody -> Js.Settled CreatedTaskData.
Variable api_getTasks : Js.Settled (option (list BackendTask)).

Local Abbreviation step' :=
  (step Date_getTime String_trim api_createIntent api_interpretIntent
        api_createTask api_getTasks).

Lemma submitInput_not_silent now text source s :
  state (submitInput api_createIntent api_interpretIntent now text source s)
  <> silent.
Proof.
  unfold submitInput.
  destruct (api_createIntent text source) as [e|r]; [done|].
  by destruct (api_interpretIntent (intent_id r)).
Qed.

Lemma selectAction_state actionId s :
  state (selectAction api_createTask actionId s) = state s
  \/ state (selectAction api_createTask actionId s) = idle.
Proof.
  unfold selectAction.
  destruct (findAction actionId (aiResponse s)) as [a|]; [|by left].
  right. by destruct (api_createTask _).
Qed.

(** Only [checkSilence] leads into ['silent'], and only when it is due. *)
Lemma step_enters_silent now ev s :
  state (step' now ev s) = silent ->
  state s <> silent ->
  ev = EvCheckSilence /\ silenceDue now s.
Proof.
  intros Hafter Hbefore.
  destruct ev; cbv [step] in Hafter;
    try (unfold setState, openInput, startListening, showIdentity in Hafter;
         by apply recordInteraction_not_silent in Hafter);
    try (simpl in Hafter; done).
  - by apply submitInput_not_silent in Hafter.
  - unfold stopListening in Hafter. case_bool_decide; [done|].
    by apply submitInput_not_silent in Hafter.
  - destruct (selectAction_state actionId s) as [Heq|Heq];
      rewrite Heq in Hafter; done.
  - unfold fetchTasks in Hafter. by destruct api_getTasks.
  - split; [done|].
    destruct (decide (silenceDue now s)) as [Hdue|Hno]; [done|].
    rewrite (checkSilence_not_due _ _ Hno) in Hafter. done.
Qed.

(** No event changes the threshold. *)
Lemma step_silenceThreshold now ev s :
  silenceThreshold (step' now ev s) = silenceThreshold s.
Proof.
  destruct ev; simpl; try reflexivity.
  - unfold submitInput.
    destruct (api_createIntent text source) as [e|r]; [done|].
    by destruct (api_interpretIntent (intent_id r)).
  - unfold stopListening. case_bool_decide; [done|].
    unfold submitInput.
    destruct (api_createIntent _ _) as [e|r]; [done|].
    by destruct (api_interpretIntent (intent_id r)).
  - unfold selectAction.
    destruct (findAction actionId (aiResponse s)); [|done].
    by destruct (api_createTask _).
  - unfold fetchTasks. by destruct api_getTasks.
  - unfold checkSilence. by destruct (_ && _).
Qed.

Lemma run_silenceThreshold evs s :
  silenceThreshold
    (run Date_getTime String_trim api_createIntent api_interpretIntent
         api_createTask api_getTasks evs s)
  = silenceThreshold s.
Proof.
  revert s. induction evs as [|[now ev] evs IH]; intros s; [done|].
  simpl. rewrite IH. apply step_silenceThreshold.
Qed.

(** *** selectAction *)

Lemma findAction_present actionId r :
  (exists a, a ∈ actions r /\ action_id a = actionId) ->
  exists a,
    findAction actionId (Some r) = Some a
    /\ a ∈ actions r /\ action_id a = actionId.
Proof.
  intros (a0 & Hin & Hid). simpl.
  destruct (List.find _ (actions r)) as [a|] eqn:Hfind.
  - apply List.find_some in Hfind as [Ha Hb].
    exists a. split; [done|]. split; [by apply list_elem_of_In|].
    by apply bool_decide_eq_true_1 in Hb.
  - apply list_elem_of_In in Hin.
    pose proof (List.find_none _ _ Hfind a0 Hin) as Hno. simpl in Hno.
    by rewrite bool_decide_eq_true_2 in Hno.
Qed.

Lemma or_string_cases o d :
  Js.or_string o d
  = match o with
    | Some x => if decide (x = "") then d else x
    | None => d
    end.
Proof. by destruct o as [[|c x]|]. Qed.

(** C3, as the store implements it.  For an action id found in the action
    list of the current AI response, [selectAction] ends with the task
    list it read extended by one task for the first action with that id,
    with the AI response cleared and the canvas ['idle'], whether
    [createTask] resolves or rejects.  The new task carries the action id
    when the call rejects, and also when it resolves with an answer whose
    id is missing or empty; it carries the id of the answer otherwise. *)
Theorem selectAction_optimistic actionId s r :
  aiResponse s = Some r ->
  (exists a, a ∈ actions r /\ action_id a = actionId) ->
  exists a t,
    findAction actionId (Some r) = Some a
    /\ a ∈ actions r
    /\ action_id a = actionId
    /\ tasks (selectAction api_createTask actionId s) = (tasks s ++ [t])%list
    /\ aiResponse (selectAction api_createTask actionId s) = None
    /\ state (selectAction api_createTask actionId s) = idle
    /\ t = newTask (task_id t) (action_title a)
    /\ task_id t
       = addedTaskId actionId
           (api_createTask
              (mkCreateTaskBody (action_title a) (estimatedMinutes a))).
Proof.
  intros Hr Hpresent.
  destruct (findAction_present _ _ Hpresent) as (a & Hfind & Hin & Hid).
  exists a. unfold selectAction. rewrite Hr, Hfind.
  destruct (api_createTask _) as [e|taskResponse]; eexists;
    (split; [done|]); (split; [done|]); (split; [done|]);
    (split; [reflexivity|]); (split; [reflexivity|]);
    (split; [reflexivity|]); (split; [reflexivity|]); simpl.
  - reflexivity.
  - apply or_string_cases.
Qed.

(** *** submitInput *)

Local Abbreviation submitInput' :=
  (submitInput api_createIntent api_interpretIntent).

(** C7. [submitInput] first puts the canvas in ['thinking'] with the error
    cleared.  When [createIntent] or [interpretIntent] rejects, it ends
    with the error set to the message of the failure, the canvas and the
    core ['idle'] and the task list as it was.  When both resolve, it ends
    in ['responding'] with an AI response whose [intentId] is the id of the
    created intent. *)
Theorem submitInput_transitions now text source s :
  let s1 := submitInput_begin now s in
  (state s1 = thinking /\ coreState s1 = core_thinking /\ error s1 = None
   /\ tasks s1 = tasks s)
  /\ (forall e,
         api_createIntent text source = inl e
         \/ (exists created,
                api_createIntent text source = inr created
                /\ api_interpretIntent (intent_id created) = inl e) ->
         submitInput' now text source s = submitInput_catch e s1
         /\ error (submitInput' now text source s) = Some (failureMessage e)
         /\ state (submitInput' now text source s) = idle
         /\ coreState (submitInput' now text source s) = core_idle
         /\ tasks (submitInput' now text source s) = tasks s)
  /\ (forall created interp,
         api_createIntent text source = inr created ->
         api_interpretIntent (intent_id created) = inr interp ->
         submitInput' now text source s
         = submitInput_done (intent_id created) interp s1
         /\ state (submitInput' now text source s) = responding
         /\ tasks (submitInput' now text source s) = tasks s
         /\ exists ai,
             aiResponse (submitInput' now text source s) = Some ai
             /\ intentId ai = intent_id created).
Proof.
  split; [|split].
  - repeat split.
  - intros e Hfail.
    assert (submitInput' now text source s
            = submitInput_catch e (submitInput_begin now s)) as ->.
    { unfold submitInput.
      destruct Hfail as [->|(created & -> & ->)]; reflexivity. }
    repeat split. by destruct e.
  - intros created interp Hcreated Hinterp.
    assert (submitInput' now text source s
            = submitInput_done (intent_id created) interp
                (submitInput_begin now s)) as ->.
    { unfold submitInput. by rewrite Hcreated, Hinterp. }
    repeat split. eexists. split; reflexivity.
Qed.

(** *** calculateUrgency *)

Lemma Qltb_lt x y : Js.Qltb x y = true <-> (x < y)%Q.
Proof.
  unfold Js.Qltb. rewrite negb_true_iff.
  destruct (Qle_bool y x) eqn:Hle.
  - apply Qle_bool_iff in Hle. split; [done|]. intros Hlt.
    exfalso. by apply (Qlt_not_le _ _ Hlt).
  - split; [intros _|done]. apply Qnot_le_lt. intros Hle'.
    apply Qle_bool_iff in Hle'. congruence.
Qed.

Lemma Qltb_ge x y : Js.Qltb x y = false <-> (y <= x)%Q.
Proof.
  unfold Js.Qltb. rewrite negb_false_iff. apply Qle_bool_iff.
Qed.

Ltac minmax_cases :=
  repeat match goal with
         | |- context [Qmax ?a ?b] =>
             let E := fresh "E" in
             destruct (Q.max_spec a b) as [[? E]|[? E]];
             revert E; generalize (Qmax a b); intros ? E
         | |- context [Qmin ?a ?b] =>
             let E := fresh "E" in
             destruct (Q.min_spec a b) as [[? E]|[? E]];
             revert E; generalize (Qmin a b); intros ? E
         end.

Lemma or_number_cases o d :
  (o = None -> Js.or_number o d = d)
  /\ (forall p, o = Some p -> (p == 0)%Q -> Js.or_number o d = d)
  /\ (forall p, o = Some p -> ~ (p == 0)%Q -> Js.or_number o d = p).
Proof.
  unfold Js.or_number, Js.truthy_number. split; [by intros ->|].
  split; intros p -> Hp.
  - apply Qeq_bool_iff in Hp. by rewrite Hp.
  - destruct (Qeq_bool p 0) eqn:Hq; [|done].
    by apply Qeq_bool_iff in Hq.
Qed.

(** What [calculateUrgency] computes, by the distance of the due date. *)
Lemma calculateUrgency_value now task :
  let u := calculateUrgency Date_getTime now task in
  let base := Js.or_number (backend_priority task) (1 # 2) in
  match daysUntilDue Date_getTime now task with
  | Some days =>
      ((days < 1)%Q -> u = Qmin (Qmax base (9 # 10)) 1)
      /\ ((1 <= days)%Q /\ (days < 3)%Q ->
          u = Qmin (Qmax base (7 # 10)) 1)
      /\ ((3 <= days)%Q /\ (days < 7)%Q ->
          u = Qmin (Qmax base (5 # 10)) 1)
      /\ ((7 <= days)%Q -> u = Qmin base 1)
  | None => u = Qmin base 1
  end.
Proof.
  unfold calculateUrgency.
  destruct (daysUntilDue Date_getTime now task) as [days|]; [|done].
  simpl.
  destruct (Js.Qltb days 1) eqn:H1;
    [apply Qltb_lt in H1|apply Qltb_ge in H1];
    (destruct (Js.Qltb days 3) eqn:H3;
     [apply Qltb_lt in H3|apply Qltb_ge in H3]);
    (destruct (Js.Qltb days 7) eqn:H7;
     [apply Qltb_lt in H7|apply Qltb_ge in H7]);
    repeat split; intros; try reflexivity; exfalso; lra.
Qed.

(** C5, as the store implements it.  [calculateUrgency] starts from the
    task's priority, or from 0.5 when the priority is missing or zero;
    a due date less than one day away raises the value to at least 0.9,
    less than three days away to at least 0.7, less than seven days away
    to at least 0.5; the result is capped at 1.  For a priority between 0
    and 1 the result lies between 0 and 1. *)
Theorem calculateUrgency_heuristic now task :
  let u := calculateUrgency Date_getTime now task in
  let base := Js.or_number (backend_priority task) (1 # 2) in
  ((backend_priority task = None -> base = 1 # 2)
   /\ (forall p, backend_priority task = Some p -> (p == 0)%Q ->
                 base = 1 # 2)
   /\ (forall p, backend_priority task = Some p -> ~ (p == 0)%Q ->
                 base = p))
  /\ (u <= 1)%Q
  /\ (Qmin base 1 <= u)%Q
  /\ match daysUntilDue Date_getTime now task with
     | Some days =>
         ((days < 1)%Q ->
          u = Qmin (Qmax base (9 # 10)) 1 /\ (9 # 10 <= u)%Q)
         /\ ((1 <= days)%Q /\ (days < 3)%Q ->
             u = Qmin (Qmax base (7 # 10)) 1 /\ (7 # 10 <= u)%Q)
         /\ ((3 <= days)%Q /\ (days < 7)%Q ->
             u = Qmin (Qmax base (5 # 10)) 1 /\ (5 # 10 <= u)%Q)
         /\ ((7 <= days)%Q -> u = Qmin base 1)
     | None => u = Qmin base 1
     end
  /\ ((forall p, backend_priority task = Some p -> (0 <= p)%Q /\ (p <= 1)%Q)
      -> (0 <= u)%Q /\ (u <= 1)%Q).
Proof.
  intros u base.
  pose proof (calculateUrgency_value now task) as Hval.
  fold u base in Hval. cbv zeta in Hval.
  pose proof (or_number_cases (backend_priority task) (1 # 2)) as Hbase.
  fold base in Hbase.
  split; [exact Hbase|].
  assert (Hrange :
            (forall p, backend_priority task = Some p ->
                       (0 <= p)%Q /\ (p <= 1)%Q) ->
            (0 <= base)%Q /\ (base <= 1)%Q).
  { intros Hp. destruct Hbase as (Hnone & Hzero & Hpos).
    destruct (backend_priority task) as [p|] eqn:Hprio.
    - destruct (Qeq_dec p 0) as [Hz|Hnz].
      + rewrite (Hzero p eq_refl Hz). lra.
      + rewrite (Hpos p eq_refl Hnz). by apply Hp.
    - rewrite (Hnone eq_refl). lra. }
  destruct (daysUntilDue Date_getTime now task) as [days|].
  - destruct Hval as (H1 & H3 & H7 & Hfar).
    destruct (Qlt_le_dec days 1) as [D1|D1];
      [|destruct (Qlt_le_dec days 3) as [D3|D3];
        [|destruct (Qlt_le_dec days 7) as [D7|D7]]].
    + rewrite (H1 D1).
      repeat split; intros; try (exfalso; lra); try apply Hrange in H;
        minmax_cases; lra.
    + rewrite (H3 (conj D1 D3)).
      repeat split; intros; try (exfalso; lra); try apply Hrange in H;
        minmax_cases; lra.
    + rewrite (H7 (conj D3 D7)).
      repeat split; intros; try (exfalso; lra); try apply Hrange in H;
        minmax_cases; lra.
    + rewrite (Hfar D7).
      repeat split; intros; try (exfalso; lra); try apply Hrange in H;
        minmax_cases; lra.
  - rewrite Hval.
    repeat split; intros; try apply Hrange in H; minmax_cases; lra.
Qed.

(** C4. [checkSilence] moves the canvas to ['silent'] exactly when the
    state is ['idle'] and more than [silenceThreshold] milliseconds have
    passed since [lastInteraction]; otherwise it returns the store as it
    was.  [recordInteraction] brings a ['silent'] canvas back to ['idle'].
    The threshold is five minutes in the initial store and no event of the
    store changes it, and no event other than a due [checkSilence] takes
    the canvas into ['silent']. *)
Theorem silence_only_from_idle_after_threshold :
  (forall now s,
      (silenceDue now s ->
       checkSilence now s = set_coreState core_silent (set_state silent s)
       /\ state (checkSilence now s) = silent)
      /\ (~ silenceDue now s -> checkSilence now s = s)
      /\ (checkSilence now s <> s <-> silenceDue now s))
  /\ (forall now s,
         state s = silent -> state (recordInteraction now s) = idle)
  /\ (forall now0 evs,
         silenceThreshold
           (run Date_getTime String_trim api_createIntent
                api_interpretIntent api_createTask api_getTasks evs
                (initial now0))
         = (5 * 60 * 1000)%Z)
  /\ (forall now ev s,
         state (step' now ev s) = silent -> state s <> silent ->
         ev = EvCheckSilence /\ silenceDue now s).
Proof.
  split; [|split; [|split]].
  - intros now s. split; [|split; [|split]].
    + intros Hdue. by rewrite checkSilence_due.
    + apply checkSilence_not_due.
    + intros Hchanged.
      destruct (decide (silenceDue now s)) as [|Hno]; [done|].
      by rewrite checkSilence_not_due in Hchanged.
    + intros Hdue Hsame. pose proof (checkSilence_due _ _ Hdue) as Heq.
      rewrite Hsame in Heq. destruct Hdue as [Hidle _].
      apply (f_equal state) in Heq. simpl in Heq. congruence.
  - intros now s Hsilent. rewrite recordInteraction_state.
    by rewrite decide_True.
  - intros now0 evs. apply run_silenceThreshold.
  - apply step_enters_silent.
Qed.

End Machine.

Import Samples.

(** [selectAction_optimistic] at a suggestion on screen and a backend that
    is down. *)
Lemma selectAction_optimistic_witness :
  aiResponse responding_store = Some suggestion
  /\ (exists a, a ∈ actions suggestion /\ action_id a = "a1")
  /\ exists a t,
      findAction "a1" (Some suggestion) = Some a
      /\ a ∈ actions suggestion
      /\ action_id a = "a1"
      /\ tasks (selectAction createTask_down "a1" responding_store)
         = (tasks responding_store ++ [t])%list
      /\ aiResponse (selectAction createTask_down "a1" responding_store)
         = None
      /\ state (selectAction createTask_down "a1" responding_store) = idle
      /\ t = newTask (task_id t) (action_title a)
      /\ task_id t
         = addedTaskId "a1"
             (createTask_down
                (mkCreateTaskBody (action_title a) (estimatedMinutes a))).
Proof.
  assert (H1 : aiResponse responding_store = Some suggestion)
    by reflexivity.
  assert (H2 : exists a, a ∈ actions suggestion /\ action_id a = "a1").
  { exists writeReport. split; [apply list_elem_of_here|reflexivity]. }
  split; [exact H1|]. split; [exact H2|].
  exact (selectAction_optimistic createTask_down "a1" responding_store
           suggestion H1 H2).
Defined.

(** C3 as the specification words it does not hold: the backend creates
    the task, its answer has no id (or an empty one), and the task that
    [selectAction] adds carries the action id ["a1"]. *)
Lemma selectAction_backend_id_counterexample :
  tasks (selectAction createTask_no_id "a1" responding_store)
  = [laundry; newTask "a1" "Write report"]
  /\ tasks (selectAction createTask_empty_id "a1" responding_store)
     = [laundry; newTask "a1" "Write report"]
  /\ ~ carries_backend_id createTask_no_id "a1" responding_store
  /\ ~ carries_backend_id createTask_empty_id "a1" responding_store.
Proof.
  split; [reflexivity|]. split; [reflexivity|].
  split; intros Hclaim.
  - destruct (Hclaim writeReport (mkCreatedTask None) eq_refl eq_refl)
      as (t & _ & Hid). discriminate Hid.
  - destruct (Hclaim writeReport (mkCreatedTask (Some "")) eq_refl eq_refl)
      as (t & Hlast & Hid).
    vm_compute in Hlast. injection Hlast as <-. discriminate Hid.
Qed.

(** C5 as the specification words it does not hold: a task of priority 0
    without a due date gets urgency 0.5, not its priority. *)
Lemma calculateUrgency_zero_priority_counterexample :
  backend_priority stretch = Some 0%Q
  /\ backend_due_date stretch = None
  /\ calculateUrgency parse_due 0 stretch = 1 # 2
  /\ ~ (calculateUrgency parse_due 0 stretch
        == Qmin (statedPriority stretch) 1)%Q.
Proof.
  split; [reflexivity|]. split; [reflexivity|]. split; [reflexivity|].
  vm_compute. discriminate.
Qed.

(** [calculateUrgency] on a task of priority 0.2 due in 25 hours. *)
Example calculateUrgency_taxes :
  daysUntilDue parse_due 0 taxes = Some (90000000 # 86400000)
  /\ calculateUrgency parse_due 0 taxes = 7 # 10.
Proof. split; reflexivity. Qed.

End CanvasFacts.

(** * Properties of the orbital layout *)

Module OrbitFacts.

Import Canvas Orbits Samples.

Lemma maxRadius_large canvasSize :
  (300 <= width canvasSize)%Q -> (300 <= height canvasSize)%Q ->
  (minRadius <= maxRadius canvasSize)%Q.
Proof.
  intros Hw Hh. unfold maxRadius, minRadius.
  destruct (Q.min_spec (width canvasSize) (height canvasSize))
    as [[_ ->]|[_ ->]]; lra.
Qed.

(** On a canvas whose maximum radius is not below the minimum one, a
    higher priority gives a radius that is not larger. *)
Lemma radius_antitone canvasSize t1 t2 :
  (minRadius <= maxRadius canvasSize)%Q ->
  (task_priority t1 <= task_priority t2)%Q ->
  (radius canvasSize t2 <= radius canvasSize t1)%Q.
Proof.
  intros Hsize Hprio. unfold radius.
  apply Qplus_le_r. apply Qmult_le_compat_r; lra.
Qed.

Lemma radius_between canvasSize t :
  (minRadius <= maxRadius canvasSize)%Q ->
  (0 <= task_priority t)%Q -> (task_priority t <= 1)%Q ->
  (minRadius <= radius canvasSize t)%Q
  /\ (radius canvasSize t <= maxRadius canvasSize)%Q.
Proof.
  intros Hsize H0 H1. unfold radius.
  set (d := (maxRadius canvasSize - minRadius)%Q) in *.
  assert (0 <= d)%Q as Hd by (unfold d; lra).
  assert (0 <= (1 - task_priority t) * d)%Q as Hlow.
  { apply Qmult_le_0_compat; lra. }
  assert ((1 - task_priority t) * d <= 1 * d)%Q as Hhigh.
  { apply Qmult_le_compat_r; lra. }
  split; [lra|]. unfold d in *. lra.
Qed.

(** C6 at a window 280 pixels wide: the maximum radius, 112, is below the
    minimum radius, 120, the task of priority 1 is placed at radius 120 and
    the task of priority 0 at radius 112, so the more important task is the
    farther one and a radius leaves the interval from 120 to the maximum
    radius.  The same happens at the size the canvas has before it is
    measured, where the radii are 120 and 0. *)
Theorem radius_inverted_on_small_canvas :
  (task_priority someday < task_priority urgent)%Q
  /\ (maxRadius narrow == 112)%Q
  /\ (radius narrow urgent == 120)%Q
  /\ (radius narrow someday == 112)%Q
  /\ ~ (radius narrow urgent <= radius narrow someday)%Q
  /\ ~ (radius narrow urgent <= maxRadius narrow)%Q
  /\ (radius unmeasured urgent == 120)%Q
  /\ (radius unmeasured someday == 0)%Q
  /\ ~ (radius unmeasured urgent <= radius unmeasured someday)%Q.
Proof.
  repeat split; vm_compute; congruence.
Qed.

End OrbitFacts.

(** * Properties of the orbit view *)

Module OrbitViewFacts.

Import Tasks OrbitView.

Lemma TaskOrbit_nonempty tasks :
  tasks <> [] ->
  TaskOrbit tasks
  = Some (imap (fun index task =>
                  mkProps (id task) task index (Nat.min (length tasks) 8))
               (take 8 tasks)).
Proof.
  intros Hne. unfold TaskOrbit. case_decide as Hlen; [|done].
  by destruct tasks.
Qed.

(** C8. [TaskOrbit] renders nothing for an empty list; otherwise it
    renders one element for each of the first eight tasks, in order, and
    none for a task at a later position. *)
Theorem TaskOrbit_first_eight tasks :
  (TaskOrbit tasks = None <-> tasks = [])
  /\ forall shown,
      TaskOrbit tasks = Some shown ->
      task <$> shown = take 8 tasks
      /\ length shown = Nat.min (length tasks) 8
      /\ (length shown <= 8)%nat
      /\ (forall i p,
            shown !! i = Some p ->
            (i < 8)%nat
            /\ tasks !! i = Some (task p)
            /\ index p = i
            /\ key p = id (task p)
            /\ total p = Nat.min (length tasks) 8)
      /\ (forall i, (8 <= i)%nat -> shown !! i = None).
Proof.
  split.
  - unfold TaskOrbit. case_decide as Hlen; split; try done.
    + intros _. by destruct tasks.
    + intros ->. done.
  - intros shown Hshown.
    assert (tasks <> []) as Hne.
    { intros ->. discriminate Hshown. }
    rewrite (TaskOrbit_nonempty _ Hne) in Hshown.
    injection Hshown as <-.
    assert (forall i p,
               imap (fun index task =>
                       mkProps (id task) task index
                               (Nat.min (length tasks) 8))
                    (take 8 tasks) !! i = Some p ->
               (i < 8)%nat /\ tasks !! i = Some (task p) /\ index p = i
               /\ key p = id (task p)
               /\ total p = Nat.min (length tasks) 8) as Hat.
    { intros i p Hi. rewrite list_lookup_imap in Hi.
      destruct (take 8 tasks !! i) as [t|] eqn:Ht; [|done].
      apply lookup_take_Some in Ht as [Ht Hlt].
      injection Hi as <-. done. }
    split; [|split; [|split; [|split]]].
    + rewrite fmap_imap. rewrite <- (list_fmap_id (take 8 tasks)) at 2.
      rewrite <- imap_const. by apply imap_ext.
    + rewrite length_imap, length_take. lia.
    + rewrite length_imap, length_take. lia.
    + exact Hat.
    + intros i Hi.
      destruct (imap _ (take 8 tasks) !! i) as [p|] eqn:Hp; [|done].
      apply Hat in Hp as [Hlt _]. lia.
Qed.

End OrbitViewFacts.

(** * Properties of the task store *)

Module TaskStoreFacts.

Import Tasks TaskStore Described.

Lemma alloc_spec items (h : Heap) :
  h !! (alloc items h).1 = None
  /\ (alloc items h).2 !! (alloc items h).1 = Some items
  /\ forall a, is_Some (h !! a) -> (alloc items h).2 !! a = h !! a.
Proof.
  unfold alloc. simpl.
  assert (h !! fresh (dom h) = None) as Hfresh.
  { apply not_elem_of_dom. apply is_fresh. }
  split; [done|]. split; [apply lookup_insert_eq|].
  intros a [x Ha]. apply lookup_insert_ne. intros <-. congruence.
Qed.

Lemma Array_spread_spec a (h : Heap) items :
  h !! a = Some items ->
  exists r h',
    Array_spread a h = Some (r, h')
    /\ h !! r = None
    /\ h' !! r = Some items
    /\ forall b, is_Some (h !! b) -> h' !! b = h !! b.
Proof.
  intros Ha. unfold Array_spread. rewrite Ha.
  destruct (alloc_spec items h) as (H1 & H2 & H3).
  exists (alloc items h).1, (alloc items h).2.
  split; [cbn [mbind option_bind]; by destruct (alloc items h)|].
  split; [exact H1|]. split; [exact H2|exact H3].
Qed.

Lemma Array_filter_spec f a (h : Heap) items :
  h !! a = Some items ->
  exists r h',
    Array_filter f a h = Some (r, h')
    /\ h !! r = None
    /\ h' !! r = Some (List.filter f items)
    /\ forall b, is_Some (h !! b) -> h' !! b = h !! b.
Proof.
  intros Ha. unfold Array_filter. rewrite Ha.
  destruct (alloc_spec (List.filter f items) h) as (H1 & H2 & H3).
  exists (alloc (List.filter f items) h).1, (alloc (List.filter f items) h).2.
  split; [cbn [mbind option_bind];
          by destruct (alloc (List.filter f items) h)|].
  split; [exact H1|]. split; [exact H2|exact H3].
Qed.

(** *** The sort *)

Lemma sort_insert_perm compareFn x l :
  Permutation (sort_insert compareFn x l) (x :: l).
Proof.
  induction l as [|y l IH]; simpl; [done|].
  destruct (Js.Qltb 0 (compareFn x y)); [|done].
  rewrite IH. apply perm_swap.
Qed.

Lemma sorted_items_perm compareFn l :
  Permutation (sorted_items compareFn l) l.
Proof.
  induction l as [|x l IH]; simpl; [done|].
  rewrite sort_insert_perm. by rewrite IH.
Qed.

Lemma byOrbitalDistance_positive x y :
  Js.Qltb 0 (byOrbitalDistance x y) = true -> closerOrEqual y x.
Proof.
  unfold closerOrEqual, byOrbitalDistance, Js.Qltb.
  rewrite negb_true_iff. intros Hle.
  destruct (Qlt_le_dec (orbital_distance y) (orbital_distance x))
    as [Hlt|Hge]; [by apply Qlt_le_weak|].
  assert (Qle_bool (orbital_distance x - orbital_distance y) 0 = true)
    as Habs by (apply Qle_bool_iff; lra).
  congruence.
Qed.

Lemma byOrbitalDistance_not_positive x y :
  Js.Qltb 0 (byOrbitalDistance x y) = false -> closerOrEqual x y.
Proof.
  unfold closerOrEqual, byOrbitalDistance, Js.Qltb.
  rewrite negb_false_iff. intros Hle. apply Qle_bool_iff in Hle. lra.
Qed.

Lemma sort_insert_HdRel x y l :
  closerOrEqual y x -> HdRel closerOrEqual y l ->
  HdRel closerOrEqual y (sort_insert byOrbitalDistance x l).
Proof.
  intros Hyx Hhd. destruct l as [|z l]; simpl.
  - by constructor.
  - destruct (Js.Qltb 0 (byOrbitalDistance x z)); constructor; [|done].
    by inversion Hhd.
Qed.

Lemma sort_insert_sorted x l :
  Sorted closerOrEqual l ->
  Sorted closerOrEqual (sort_insert byOrbitalDistance x l).
Proof.
  induction 1 as [|y l Hsorted IH Hhd]; simpl.
  - repeat constructor.
  - destruct (Js.Qltb 0 (byOrbitalDistance x y)) eqn:Hcmp.
    + constructor; [exact IH|].
      apply sort_insert_HdRel; [|done].
      by apply byOrbitalDistance_positive.
    + constructor; [by constructor|]. constructor.
      by apply byOrbitalDistance_not_positive.
Qed.

Lemma sorted_items_sorted l :
  Sorted closerOrEqual (sorted_items byOrbitalDistance l).
Proof.
  induction l as [|x l IH]; simpl; [constructor|].
  by apply sort_insert_sorted.
Qed.

Lemma isOpen_status t :
  isOpen t = true <-> status t = pending \/ status t = in_progress.
Proof.
  unfold isOpen. rewrite orb_true_iff.
  by rewrite !bool_decide_eq_true.
Qed.

(** C9. [getTasksByOrbitalDistance] returns a new array that holds exactly
    the tasks of the store whose status is ['pending'] or ['in_progress'],
    in non-decreasing order of [orbital_distance]; the array of the store,
    like every array that existed before the call, is left as it was. *)
Theorem getTasksByOrbitalDistance_sorted st (h : Heap) items :
  h !! tasks st = Some items ->
  exists result h' sorted,
    getTasksByOrbitalDistance st h = Some (result, h')
    /\ h' !! result = Some sorted
    /\ Permutation sorted (List.filter isOpen items)
    /\ Sorted closerOrEqual sorted
    /\ (forall t,
          t ∈ sorted
          <-> t ∈ items /\ (status t = pending \/ status t = in_progress))
    /\ h' !! tasks st = Some items
    /\ (forall a, is_Some (h !! a) -> h' !! a = h !! a)
    /\ h !! result = None.
Proof.
  intros Hstore. unfold getTasksByOrbitalDistance.
  destruct (Array_spread_spec _ _ _ Hstore)
    as (copy & h1 & -> & Hnew1 & Hget1 & Hold1).
  cbn [mbind option_bind].
  destruct (Array_filter_spec isOpen _ _ _ Hget1)
    as (kept & h2 & -> & Hnew2 & Hget2 & Hold2).
  cbn [mbind option_bind].
  unfold Array_sort. rewrite Hget2. cbn [mbind option_bind].
  assert (forall a, is_Some (h !! a) -> kept <> a) as Hfresh.
  { intros a Ha <-. rewrite <- (Hold1 _ Ha) in Ha.
    rewrite Hnew2 in Ha. by destruct Ha. }
  assert (forall a, is_Some (h !! a) ->
                    <[kept := sorted_items byOrbitalDistance
                                (List.filter isOpen items)]> h2 !! a
                    = h !! a) as Hframe.
  { intros a Ha. rewrite lookup_insert_ne by by apply Hfresh.
    rewrite Hold2 by (by rewrite Hold1). by apply Hold1. }
  eexists kept, _, _. split; [reflexivity|].
  split; [apply lookup_insert_eq|].
  split; [apply sorted_items_perm|].
  split; [apply sorted_items_sorted|].
  split; [|split; [|split]].
  - intros t. rewrite (sorted_items_perm byOrbitalDistance).
    rewrite !list_elem_of_In, List.filter_In, isOpen_status. done.
  - rewrite Hframe by done. done.
  - exact Hframe.
  - destruct (h !! kept) eqn:Hk; [|done].
    exfalso. by apply (Hfresh kept).
Qed.

Import Samples.

(** [getTasksByOrbitalDistance_sorted] at a store of four tasks. *)
Lemma getTasksByOrbitalDistance_witness :
  taskHeap !! tasks taskState = Some storedTasks
  /\ exists result h' sorted,
      getTasksByOrbitalDistance taskState taskHeap = Some (result, h')
      /\ h' !! result = Some sorted
      /\ Permutation sorted (List.filter isOpen storedTasks)
      /\ Sorted closerOrEqual sorted
      /\ (forall t,
            t ∈ sorted
            <-> t ∈ storedTasks
                /\ (status t = pending \/ status t = in_progress))
      /\ h' !! tasks taskState = Some storedTasks
      /\ (forall a, is_Some (taskHeap !! a) -> h' !! a = taskHeap !! a)
      /\ taskHeap !! result = None.
Proof.
  assert (H : taskHeap !! tasks taskState = Some storedTasks)
    by reflexivity.
  split; [exact H|].
  exact (getTasksByOrbitalDistance_sorted taskState taskHeap storedTasks H).
Defined.

(** The call on the sample store, evaluated. *)
Example getTasksByOrbitalDistance_sample :
  (fun r => r.2 !! r.1) <$> getTasksByOrbitalDistance taskState taskHeap
  = Some (Some [ backendTask "near" in_progress 1;
                 backendTask "mid" pending 2;
                 backendTask "far" pending 3 ]).
Proof. vm_compute. reflexivity. Qed.

End TaskStoreFacts.

(** * Properties of the service worker *)

Module ServiceWorkerFacts.

Import Offline ServiceWorker Described.

Section FetchFacts.

Variable fetch : Request -> Js.Settled Response.

Lemma onFetch_not_GET request cs :
  method request <> "GET" -> onFetch fetch request cs = None.
Proof.
  intros Hm. unfold onFetch. by rewrite bool_decide_eq_false_2.
Qed.

(** The strategy that answers a GET request. *)
Lemma onFetch_GET request cs :
  method request = "GET" ->
  onFetch fetch request cs
  = Some (if String.prefix "/api/" (pathname request)
          then handleApiRequest fetch request cs
          else if isStaticAsset (pathname request)
          then cacheFirst fetch request cs
          else if bool_decide (mode request = "navigate")
          then networkFirstWithOfflineFallback fetch request cs
          else networkFirst fetch request cs).
Proof.
  intros Hm. unfold onFetch. rewrite bool_decide_eq_true_2 by done.
  cbn [negb].
  destruct (String.prefix "/api/" (pathname request)); [done|].
  destruct (isStaticAsset (pathname request)); [done|].
  by destruct (bool_decide (mode request = "navigate")).
Qed.

Lemma cacheFirst_hit request cs cached :
  caches_match (url request) cs = Some cached ->
  cacheFirst fetch request cs
  = mkServed (inr (Some cached)) cs [CacheMatch (url request)].
Proof. intros Hc. unfold cacheFirst. by rewrite Hc. Qed.

Lemma not_elem_of_effects u (l : list Effect) :
  Forall (fun e => e <> CacheMatch u) l -> CacheMatch u ∉ l.
Proof.
  intros Hall Hin. rewrite Forall_forall in Hall. by apply (Hall _ Hin).
Qed.

Ltac network_first :=
  split; [|split];
  [ repeat case_match; reflexivity
  | intros response Hnet; rewrite Hnet;
    repeat case_match; (split; [reflexivity|]);
    apply not_elem_of_effects; repeat constructor; discriminate
  | intros e cached Hnet Hcache; rewrite Hnet, Hcache;
    (split; [reflexivity|]); (split; [reflexivity|]);
    eexists; repeat split ].

Lemma networkFirst_behaviour request cs :
  networkFirstBehaviour fetch request cs (networkFirst fetch request cs).
Proof. unfold networkFirstBehaviour, networkFirst. network_first. Qed.

Lemma networkFirstWithOfflineFallback_behaviour request cs :
  networkFirstBehaviour fetch request cs
    (networkFirstWithOfflineFallback fetch request cs).
Proof.
  unfold networkFirstBehaviour, networkFirstWithOfflineFallback.
  network_first.
Qed.

Lemma handleApiRequest_behaviour request cs :
  networkFirstBehaviour fetch request cs
    (handleApiRequest fetch request cs).
Proof. unfold networkFirstBehaviour, handleApiRequest. network_first. Qed.

(** C1, as the worker implements it.  The worker leaves requests other
    than GET to the browser.  A GET request for a static asset outside
    [/api/] that has a cached response is answered with it and the network
    is not used.  Every other GET request goes to the network first: the
    answer of the network is served without a look at the cache, and the
    cache is consulted only when the network fails, in which case the
    cached response is served. *)
Theorem onFetch_strategy request cs :
  (method request <> "GET" -> onFetch fetch request cs = None)
  /\ (method request = "GET" ->
      exists served,
        onFetch fetch request cs = Some served
        /\ if cacheFirstRoute request
           then forall cached,
               caches_match (url request) cs = Some cached ->
               answer served = inr (Some cached)
               /\ effects served = [CacheMatch (url request)]
               /\ caches_after served = cs
           else networkFirstBehaviour fetch request cs served).
Proof.
  split; [apply onFetch_not_GET|].
  intros Hm. eexists. split; [by apply onFetch_GET|].
  unfold cacheFirstRoute.
  destruct (String.prefix "/api/" (pathname request)); cbn [negb andb].
  - apply handleApiRequest_behaviour.
  - destruct (isStaticAsset (pathname request)).
    + intros cached Hc. by rewrite (cacheFirst_hit _ _ _ Hc).
    + destruct (bool_decide (mode request = "navigate")).
      * apply networkFirstWithOfflineFallback_behaviour.
      * apply networkFirst_behaviour.
Qed.

End FetchFacts.

Import Samples.

(** C1 as the specification words it does not hold: the active intents
    are in the cache, the network answers too, and the worker serves the
    answer of the network without a look at the cache. *)
Lemma cache_then_network_counterexample :
  method activeIntentsRequest = "GET"
  /\ caches_match (url activeIntentsRequest) warmCaches = Some cachedIntents
  /\ (answer <$> onFetch online activeIntentsRequest warmCaches)
     = Some (inr (Some freshIntents))
  /\ (effects <$> onFetch online activeIntentsRequest warmCaches)
     = Some [ NetFetch (url activeIntentsRequest);
              CachePut OFFLINE_CACHE (url activeIntentsRequest) ]
  /\ ~ cache_then_network online activeIntentsRequest warmCaches.
Proof.
  split; [reflexivity|]. split; [reflexivity|].
  split; [reflexivity|]. split; [reflexivity|].
  intros Hclaim.
  destruct (Hclaim cachedIntents _ eq_refl eq_refl eq_refl) as [Hanswer _].
  vm_compute in Hanswer. discriminate Hanswer.
Qed.

(** [onFetch_strategy] at a GET request for a cached image. *)
Lemma onFetch_strategy_witness :
  method logoRequest = "GET"
  /\ cacheFirstRoute logoRequest = true
  /\ exists served,
      onFetch online logoRequest
              [(STATIC_CACHE, {[ url logoRequest := cachedIntents ]})]
      = Some served
      /\ answer served = inr (Some cachedIntents)
      /\ effects served = [CacheMatch (url logoRequest)].
Proof.
  assert (Hm : method logoRequest = "GET") by reflexivity.
  split; [exact Hm|]. split; [reflexivity|].
  destruct (proj2 (onFetch_strategy online logoRequest
                     [(STATIC_CACHE, {[ url logoRequest := cachedIntents ]})])
              Hm) as (served & Hserved & Hroute).
  exists served. split; [exact Hserved|].
  change (cacheFirstRoute logoRequest) with true in Hroute.
  destruct (Hroute cachedIntents eq_refl) as (Ha & He & _).
  split; [exact Ha|exact He].
Defined.

End ServiceWorkerFacts.

(** * Properties of the offline queue *)

Module OfflineFacts.

Import Offline Described.

Lemma truthy_id_Some o k :
  truthy_id o = Some k <-> o = Some k /\ k <> 0%N.
Proof.
  destruct o as [[|p]|]; simpl; split; try (intros [??]; congruence);
    try discriminate.
  intros [= <-]. done.
Qed.

(** *** The queue stays valid *)

Lemma emptyDatabase_valid : queueValid emptyDatabase.
Proof.
  split; [constructor|]. split; [|constructor].
  intros r Hr. by apply elem_of_nil in Hr.
Qed.

Lemma addPendingIntent_valid text context nowISO db :
  queueValid db ->
  (0 < keyGenerator (pending_intents db))%N ->
  queueValid (addPendingIntent text context nowISO db).2
  /\ (0 < keyGenerator
            (pending_intents (addPendingIntent text context nowISO db).2))%N.
Proof.
  intros (Hnodup & Hkeys & Htasks) Hgen. unfold queueValid. simpl.
  split; [|lia]. split; [|split; [|done]].
  - rewrite fmap_app. simpl. apply NoDup_app. split; [done|].
    split; [|apply NoDup_singleton].
    intros o Ho Hin. apply list_elem_of_singleton in Hin as ->.
    apply list_elem_of_fmap in Ho as (r & Hid & Hr).
    destruct (Hkeys r Hr) as (k & Hk & _ & Hlt). rewrite Hk in Hid.
    injection Hid as Hid. lia.
  - intros r Hr. apply elem_of_app in Hr as [Hr|Hr].
    + destruct (Hkeys r Hr) as (k & Hk & Hpos & Hlt).
      exists k. repeat split; [done|done|lia].
    + apply list_elem_of_singleton in Hr as ->. simpl.
      eexists. repeat split; [done|lia].
Qed.

(** *** The passes of [syncPendingData] *)

Section Passes.

Variable Server : Type.
Variable api_post : Server -> PostRequest -> Js.Settled unit * Server.

Local Abbreviation syncIntents' := (syncIntents Server api_post).
Local Abbreviation syncTasks' := (syncTasks Server api_post).

(** Every queued intent is sent, once and in order, whatever the answers
    to the earlier ones. *)
Lemma syncIntents_sent pending srv db :
  sent <$> exchanges (syncIntents' pending srv db)
  = intentRequest <$> pending.
Proof.
  revert srv db. induction pending as [|intent rest IH]; intros srv db;
    [done|].
  simpl. destruct (api_post srv (intentRequest intent)) as [[e|u] srv'];
    simpl; by rewrite IH.
Qed.

Lemma syncTasks_sent pending srv db :
  sent <$> exchanges (syncTasks' pending srv db) = taskRequest <$> pending.
Proof.
  revert srv db. induction pending as [|task rest IH]; intros srv db;
    [done|].
  simpl. destruct (api_post srv (taskRequest task)) as [[e|u] srv'];
    simpl; by rewrite IH.
Qed.

Lemma intentRemovedBy_cons intent rest ex log record :
  intentRemovedBy (intent :: rest) (ex :: log) record
  <-> (accepted ex = true
       /\ exists k, truthy_id (intent_id intent) = Some k
                    /\ intent_id record = Some k)
      \/ intentRemovedBy rest log record.
Proof.
  unfold intentRemovedBy. split.
  - intros ([|j] & i & x & k & Hi & Hx & Hacc & Hk & Hr); simpl in *.
    + simplify_eq. left. eauto.
    + right. exists j, i, x, k. done.
  - intros [(Hacc & k & Hk & Hr)|(j & i & x & k & H)].
    + exists 0%nat, intent, ex, k. done.
    + exists (S j), i, x, k. done.
Qed.

Lemma taskRemovedBy_cons task rest ex log record :
  taskRemovedBy (task :: rest) (ex :: log) record
  <-> (accepted ex = true /\ task_id record = task_id task)
      \/ taskRemovedBy rest log record.
Proof.
  unfold taskRemovedBy. split.
  - intros ([|j] & i & x & Hi & Hx & Hacc & Hr); simpl in *.
    + simplify_eq. by left.
    + right. exists j, i, x. done.
  - intros [(Hacc & Hr)|(j & i & x & H)].
    + exists 0%nat, task, ex. done.
    + exists (S j), i, x. done.
Qed.

Lemma intentRemovedBy_nil log record : ~ intentRemovedBy [] log record.
Proof. by intros (j & i & x & k & Hi & _). Qed.

Lemma taskRemovedBy_nil log record : ~ taskRemovedBy [] log record.
Proof. by intros (j & i & x & Hi & _). Qed.

Lemma elem_of_intents_delete k db record :
  record ∈ intent_records (pending_intents (intents_delete k db))
  <-> record ∈ intent_records (pending_intents db)
      /\ intent_id record <> Some k.
Proof.
  simpl. rewrite !list_elem_of_In, List.filter_In, negb_true_iff.
  by rewrite bool_decide_eq_false.
Qed.

Lemma elem_of_tasks_delete k db record :
  record ∈ pending_tasks (tasks_delete k db)
  <-> record ∈ pending_tasks db /\ task_id record <> k.
Proof.
  simpl. rewrite !list_elem_of_In, List.filter_In, negb_true_iff.
  by rewrite bool_decide_eq_false.
Qed.

(** A record is in the intent store after the pass exactly when it was
    there before and no accepted request deleted it. *)
Lemma syncIntents_records pending srv db record :
  record ∈ intent_records
             (pending_intents (database_after (syncIntents' pending srv db)))
  <-> record ∈ intent_records (pending_intents db)
      /\ ~ intentRemovedBy pending (exchanges (syncIntents' pending srv db))
                           record.
Proof.
  revert srv db. induction pending as [|intent rest IH]; intros srv db.
  - simpl. split; [|by intros [? _]].
    intros H. split; [done|apply intentRemovedBy_nil].
  - simpl. destruct (api_post srv (intentRequest intent)) as [[e|u] srv'];
      simpl; rewrite intentRemovedBy_cons, IH; simpl.
    + split; intros [Hin Hno]; (split; [done|]).
      * by intros [[? _]|?].
      * tauto.
    + destruct (truthy_id (intent_id intent)) as [k|] eqn:Hk.
      * unfold removePendingIntent. rewrite elem_of_intents_delete.
        split.
        -- intros [[Hin Hne] Hno]. split; [done|].
           intros [(_ & k' & [= <-] & Hr)|?]; done.
        -- intros [Hin Hno]. split; [split; [done|]|tauto].
           intros Hr. apply Hno. left. eauto.
      * split; intros [Hin Hno]; (split; [done|]).
        -- by intros [(_ & k' & ? & _)|?].
        -- tauto.
Qed.

Lemma syncTasks_records pending srv db record :
  record ∈ pending_tasks (database_after (syncTasks' pending srv db))
  <-> record ∈ pending_tasks db
      /\ ~ taskRemovedBy pending (exchanges (syncTasks' pending srv db))
                         record.
Proof.
  revert srv db. induction pending as [|task rest IH]; intros srv db.
  - simpl. split; [|by intros [? _]].
    intros H. split; [done|apply taskRemovedBy_nil].
  - simpl. destruct (api_post srv (taskRequest task)) as [[e|u] srv'];
      simpl; rewrite taskRemovedBy_cons, IH; simpl.
    + split; intros [Hin Hno]; (split; [done|]).
      * by intros [[? _]|?].
      * tauto.
    + pose proof (elem_of_tasks_delete (task_id task) db record) as Hdel.
      simpl in Hdel. rewrite Hdel. split.
      * intros [[Hin Hne] Hno]. split; [done|]. by intros [[_ ?]|?].
      * intros [Hin Hno]. split; [split; [done|]|tauto].
        intros Hr. apply Hno. by left.
Qed.

(** The passes do not touch the other store. *)
Lemma syncIntents_tasks pending srv db :
  pending_tasks (database_after (syncIntents' pending srv db))
  = pending_tasks db.
Proof.
  revert srv db. induction pending as [|intent rest IH]; intros srv db;
    [done|].
  simpl. destruct (api_post srv (intentRequest intent)) as [[e|u] srv'];
    simpl; rewrite IH; [done|].
  by destruct (truthy_id (intent_id intent)).
Qed.

Lemma syncTasks_intents pending srv db :
  pending_intents (database_after (syncTasks' pending srv db))
  = pending_intents db.
Proof.
  revert srv db. induction pending as [|task rest IH]; intros srv db;
    [done|].
  simpl. destruct (api_post srv (taskRequest task)) as [[e|u] srv'];
    simpl; by rewrite IH.
Qed.

(** On a valid queue, the intent at position [i] is still queued after the
    pass exactly when the answer to its own request was a failure. *)
Lemma syncIntents_reconciles srv db i intent ex :
  queueValid db ->
  getPendingIntents db !! i = Some intent ->
  exchanges (syncIntents' (getPendingIntents db) srv db) !! i = Some ex ->
  sent ex = intentRequest intent
  /\ (intent ∈ getPendingIntents
                 (database_after
                    (syncIntents' (getPendingIntents db) srv db))
      <-> accepted ex = false).
Proof.
  intros (Hnodup & Hkeys & _) Hi Hex.
  unfold getPendingIntents in *. simpl in *.
  set (records := intent_records (pending_intents db)) in *.
  split.
  { pose proof (syncIntents_sent records srv db) as Hsent.
    apply (f_equal (fun l => l !! i)) in Hsent.
    rewrite !list_lookup_fmap, Hi, Hex in Hsent. simpl in Hsent.
    congruence. }
  assert (intent ∈ records) as Hin by (by eapply list_elem_of_lookup_2).
  destruct (Hkeys intent Hin) as (k & Hk & Hpos & _).
  rewrite syncIntents_records. fold records. split.
  - intros [_ Hno]. destruct (accepted ex) eqn:Hacc; [|done].
    exfalso. apply Hno. exists i, intent, ex, k.
    repeat split; try done. apply truthy_id_Some. split; [done|lia].
  - intros Hacc. split; [done|].
    intros (j & intent' & ex' & k' & Hj & Hex' & Hacc' & Hk' & Hr).
    apply truthy_id_Some in Hk' as [Hk' _].
    assert (i = j) as <-.
    { apply (NoDup_lookup _ _ _ (Some k) Hnodup);
        rewrite list_lookup_fmap.
      - by rewrite Hi; simpl; rewrite Hk.
      - rewrite Hj. simpl. congruence. }
    congruence.
Qed.

Lemma syncTasks_reconciles srv db i task ex :
  queueValid db ->
  getPendingTasks db !! i = Some task ->
  exchanges (syncTasks' (getPendingTasks db) srv db) !! i = Some ex ->
  sent ex = taskRequest task
  /\ (task ∈ getPendingTasks
               (database_after (syncTasks' (getPendingTasks db) srv db))
      <-> accepted ex = false).
Proof.
  intros (_ & _ & Hnodup) Hi Hex.
  unfold getPendingTasks in *. simpl in *.
  set (records := pending_tasks db) in *.
  split.
  { pose proof (syncTasks_sent records srv db) as Hsent.
    apply (f_equal (fun l => l !! i)) in Hsent.
    rewrite !list_lookup_fmap, Hi, Hex in Hsent. simpl in Hsent.
    congruence. }
  assert (task ∈ records) as Hin by (by eapply list_elem_of_lookup_2).
  rewrite syncTasks_records. fold records. split.
  - intros [_ Hno]. destruct (accepted ex) eqn:Hacc; [|done].
    exfalso. apply Hno. exists i, task, ex. done.
  - intros Hacc. split; [done|].
    intros (j & task' & ex' & Hj & Hex' & Hacc' & Hr).
    assert (i = j) as <-.
    { apply (NoDup_lookup _ _ _ (task_id task) Hnodup);
        rewrite list_lookup_fmap.
      - by rewrite Hi.
      - rewrite Hj. simpl. congruence. }
    congruence.
Qed.

End Passes.

End OfflineFacts.

(** * Background sync against the queue *)

Module BackgroundSyncFacts.

Import Offline ServiceWorker Samples.

(** C2 at a queue with one intent and one task action and a backend that
    accepts every request.  The sync functions of the service worker hold
    an IndexedDB request where they expect the array of records, so the
    [for] loop throws before the first request is sent: nothing is posted
    and both records stay queued.  The pass of [useOffline], which reads
    the records through [OfflineStorage], posts both and deletes both. *)
Theorem background_sync_leaves_queue :
  (forall (Server : Type)
          (fetch_post : Server -> PostRequest -> Js.Settled Response * Server)
          (srv : Server) (db : Database),
      syncOfflineIntents Server fetch_post srv db
      = (inl (Js.TypeError "intents is not iterable"),
         mkSyncResult srv db [])
      /\ syncOfflineTasks Server fetch_post srv db
         = (inl (Js.TypeError "tasks is not iterable"),
            mkSyncResult srv db []))
  /\ getPendingIntents queued = [buyMilk]
  /\ getPendingTasks queued = [finishReport]
  /\ exchanges (onSync unit accepting_fetch "sync-intents" tt queued).2 = []
  /\ database_after (onSync unit accepting_fetch "sync-intents" tt queued).2
     = queued
  /\ exchanges (onSync unit accepting_fetch "sync-tasks" tt queued).2 = []
  /\ database_after (onSync unit accepting_fetch "sync-tasks" tt queued).2
     = queued
  /\ (let '(done, _, intentsPass, tasksPass) :=
        syncPendingData unit accepting_post true 5000 hookState tt queued in
      done = true
      /\ exchanges intentsPass = [mkExchange (intentRequest buyMilk) true]
      /\ exchanges tasksPass = [mkExchange (taskRequest finishReport) true]
      /\ getPendingIntents (database_after tasksPass) = []
      /\ getPendingTasks (database_after tasksPass) = []).
Proof.
  split; [by intros Server fetch_post srv db|].
  repeat split.
Qed.

End BackgroundSyncFacts.

(** * More about the canvas store *)

Module CanvasMore.

Import Canvas Described MoreDescribed.

Ltac minmax_cases :=
  repeat match goal with
         | |- context [Qmax ?a ?b] =>
             let E := fresh "E" in
             destruct (Q.max_spec a b) as [[? E]|[? E]];
             revert E; generalize (Qmax a b); intros ? E
         | |- context [Qmin ?a ?b] =>
             let E := fresh "E" in
             destruct (Q.min_spec a b) as [[? E]|[? E]];
             revert E; generalize (Qmin a b); intros ? E
         end.

(** X1. After an interaction the canvas does not fall silent before the
    threshold has passed: a [checkSilence] at most [silenceThreshold]
    milliseconds after [recordInteraction] leaves the store as it is, and a
    later one on an idle canvas makes it silent. *)
Theorem recordInteraction_defers_silence now now' s :
  ((now' - now <= silenceThreshold s)%Z ->
   checkSilence now' (recordInteraction now s) = recordInteraction now s)
  /\ ((silenceThreshold s < now' - now)%Z ->
      state s = idle \/ state s = silent ->
      state (checkSilence now' (recordInteraction now s)) = silent).
Proof.
  split.
  - intros Hsoon. apply CanvasFacts.checkSilence_not_due.
    intros [_ Hlate]. simpl in Hlate. lia.
  - intros Hlate Hstate.
    rewrite CanvasFacts.checkSilence_due; [done|].
    split; [|simpl; lia].
    rewrite CanvasFacts.recordInteraction_state.
    destruct Hstate as [->| ->]; by case_decide.
Qed.

(** Once the canvas is silent, further silence checks change nothing,
    whatever the clock reads. *)
Theorem checkSilence_absorbing now now' s :
  state (checkSilence now s) = silent ->
  checkSilence now' (checkSilence now s) = checkSilence now s.
Proof.
  intros Hsilent. apply CanvasFacts.checkSilence_not_due.
  intros [Hidle _]. congruence.
Qed.


Section WithBackend.

Variable Date_getTime : string -> option Z.
Variable String_trim : string -> string.
Variable api_createIntent : string -> InputSource -> Js.Settled IntentData.
Variable api_interpretIntent :
  option string -> Js.Settled InterpretationData.
Variable api_createTask : CreateTaskBody -> Js.Settled CreatedTaskData.
Variable api_getTasks : Js.Settled (option (list BackendTask)).

Local Abbreviation step' :=
  (step Date_getTime String_trim api_createIntent api_interpretIntent
        api_createTask api_getTasks).

(** X3. Data and timer events (urgency, error, transcript, AI response,
    task list updates, the completion of a task, the fetch of the tasks)
    never change the mode of the canvas; in particular they do not wake a
    silent canvas. *)
Theorem data_events_keep_state now ev s :
  isDataEvent ev = true -> state (step' now ev s) = state s.
Proof.
  intros Hev. destruct ev; try discriminate Hev; try reflexivity.
  simpl. unfold fetchTasks. by destruct api_getTasks.
Qed.

(** X4. Without a matching action [selectAction] does nothing: when no AI
    response is shown, or none of its actions has the id, the store is
    returned as it is. *)
Theorem selectAction_without_action actionId s :
  (aiResponse s = None
   \/ exists r, aiResponse s = Some r
                /\ forall a, a ∈ actions r -> action_id a <> actionId) ->
  selectAction api_createTask actionId s = s.
Proof.
  intros Hno. unfold selectAction.
  assert (findAction actionId (aiResponse s) = None) as ->; [|done].
  destruct Hno as [->|(r & -> & Hr)]; [done|]. simpl.
  destruct (List.find _ (actions r)) as [a|] eqn:Hfind; [|done].
  apply List.find_some in Hfind as [Hin Hid].
  apply bool_decide_eq_true_1 in Hid.
  by destruct (Hr a (proj2 (list_elem_of_In _ _) Hin)).
Qed.


(** *** fetchTasks *)

Lemma or_number_nonzero o d : ~ (d == 0)%Q -> ~ (Js.or_number o d == 0)%Q.
Proof.
  intros Hd. unfold Js.or_number, Js.truthy_number.
  destruct o as [p|]; [|done].
  destruct (Qeq_bool p 0) eqn:Hp; [done|]. simpl.
  intros Hz. apply Qeq_bool_iff in Hz. congruence.
Qed.

Lemma calculateUrgency_le_1 now task :
  (calculateUrgency Date_getTime now task <= 1)%Q.
Proof. unfold calculateUrgency. apply Q.le_min_r. Qed.

(** X6. [fetchTasks] leaves the store alone when the request fails.  When
    it succeeds it replaces the task list, and nothing else, by one node
    per backend task, in order, with the task's id and title; no node has
    priority 0, an urgency above 1 or the status ['fading'], and a node is
    ['completing'] exactly when the backend status is ['completed']. *)
Theorem fetchTasks_result now s :
  match api_getTasks with
  | inl _ => fetchTasks Date_getTime api_getTasks now s = s
  | inr data =>
      let backend := default [] data in
      let s' := fetchTasks Date_getTime api_getTasks now s in
      s' = set_tasks (tasks s') s
      /\ task_id <$> tasks s' = backend_id <$> backend
      /\ task_title <$> tasks s' = backend_title <$> backend
      /\ (forall t, t ∈ tasks s' ->
                    ~ (task_priority t == 0)%Q
                    /\ (task_urgency t <= 1)%Q
                    /\ task_status t <> fading)
      /\ (forall i b t,
             backend !! i = Some b -> tasks s' !! i = Some t ->
             (task_status t = completing <-> backend_status b = "completed"))
  end.
Proof.
  unfold fetchTasks. destruct api_getTasks as [e|data]; [done|].
  cbv zeta. split; [reflexivity|]. simpl.
  split; [by rewrite <- list_fmap_compose|].
  split; [by rewrite <- list_fmap_compose|]. split.
  - intros t Ht. apply list_elem_of_fmap in Ht as (b & -> & _). simpl.
    split; [by apply or_number_nonzero|].
    split; [apply calculateUrgency_le_1|]. by case_bool_decide.
  - intros i b t Hb Ht. rewrite list_lookup_fmap, Hb in Ht.
    injection Ht as <-. simpl. by case_bool_decide.
Qed.

(** *** The AI response built by submitInput *)

Lemma or_string_nonempty o d : d <> "" -> Js.or_string o d <> "".
Proof. intros Hd. by destruct o as [[|c x]|]. Qed.

(** X7. The AI response that [submitInput] builds has one action per
    suggested task, in order and with the task's title; every action has a
    non-empty id, which is ["action-i"] for a task at position [i] whose
    own id is missing or empty; the statement is not empty and the
    confidence line is present. *)
Theorem toAIResponse_actions intentId interp :
  let suggested := default [] (suggested_tasks interp) in
  let r := toAIResponse intentId interp in
  length (actions r) = length suggested
  /\ action_title <$> actions r = suggested_title <$> suggested
  /\ (forall a, a ∈ actions r -> action_id a <> "")
  /\ (forall i task,
         suggested !! i = Some task ->
         suggested_id task = None \/ suggested_id task = Some "" ->
         action_id <$> actions r !! i = Some ("action-" +:+ pretty i))
  /\ statement r <> ""
  /\ is_Some (confidence r)
  /\ Canvas.intentId r = intentId.
Proof.
  cbv zeta. unfold toAIResponse. simpl.
  destruct (suggested_tasks interp) as [ts|]; simpl.
  - split; [apply length_imap|].
    split.
    { rewrite fmap_imap. rewrite <- imap_const. by apply imap_ext. }
    split.
    { intros a Ha. apply elem_of_lookup_imap in Ha as (i & task & -> & _).
      simpl. by apply or_string_nonempty. }
    split.
    { intros i task Hi Hid. rewrite list_lookup_imap, Hi. simpl.
      by destruct Hid as [->| ->]. }
    split; [by apply or_string_nonempty|]. split; [by eexists|done].
  - split; [done|]. split; [done|].
    split; [by intros a Ha; apply elem_of_nil in Ha|].
    split; [done|].
    split; [by apply or_string_nonempty|]. split; [by eexists|done].
Qed.

(** *** Age and urgency *)

Lemma Qfloor_days (n : Z) :
  Qfloor (inject_Z n / inject_Z msPerDay) = (n / msPerDay)%Z.
Proof.
  unfold Qdiv, Qmult, Qinv, inject_Z, msPerDay, Qfloor. simpl.
  by rewrite Z.mul_1_r.
Qed.

(** X8. [calculateAge] counts the whole days between the creation date and
    now, rounding down: it is NaN for a date that does not parse, and for
    age [n] the creation date lies at least [n] and less than [n + 1] days
    back; a date in the future gives a negative age. *)
Theorem calculateAge_whole_days now createdAt :
  match Date_getTime createdAt with
  | None => calculateAge Date_getTime now createdAt = None
  | Some created =>
      exists n : Z,
        calculateAge Date_getTime now createdAt = Some (inject_Z n)
        /\ (n * msPerDay <= now - created < (n + 1) * msPerDay)%Z
        /\ (0 <= n <-> created <= now)%Z
  end.
Proof.
  unfold calculateAge. destruct (Date_getTime createdAt) as [created|];
    [|done].
  exists (Qfloor (inject_Z (now - created) / inject_Z msPerDay)).
  split; [reflexivity|]. rewrite Qfloor_days.
  assert (0 < msPerDay)%Z as Hday by (unfold msPerDay; lia).
  pose proof (Z.div_mod (now - created) msPerDay ltac:(lia)) as Hdiv.
  pose proof (Z.mod_pos_bound (now - created) msPerDay Hday) as Hmod.
  split; [lia|].
  split; intros H.
  - assert (0 <= (now - created) / msPerDay * msPerDay)%Z by nia. lia.
  - apply Z.div_pos; lia.
Qed.

(** X9. Among tasks of the same priority, urgency never grows when the
    due date moves away: a task due later is at most as urgent as one due
    sooner, and a task without a due date that parses is at most as urgent
    as any of them. *)
Theorem calculateUrgency_sooner_is_more_urgent now t1 t2 :
  backend_priority t1 = backend_priority t2 ->
  match daysUntilDue Date_getTime now t1,
        daysUntilDue Date_getTime now t2 with
  | Some d1, Some d2 =>
      (d1 <= d2)%Q ->
      (calculateUrgency Date_getTime now t2
       <= calculateUrgency Date_getTime now t1)%Q
  | _, None =>
      (calculateUrgency Date_getTime now t2
       <= calculateUrgency Date_getTime now t1)%Q
  | None, Some _ => True
  end.
Proof.
  intros Hprio. unfold calculateUrgency. rewrite Hprio.
  set (base := Js.or_number (backend_priority t2) (1 # 2)).
  destruct (daysUntilDue Date_getTime now t1) as [d1|],
           (daysUntilDue Date_getTime now t2) as [d2|]; try done.
  - intros Hle.
    destruct (Js.Qltb d1 1) eqn:A1;
      [apply CanvasFacts.Qltb_lt in A1|apply CanvasFacts.Qltb_ge in A1];
    (destruct (Js.Qltb d1 3) eqn:A3;
      [apply CanvasFacts.Qltb_lt in A3|apply CanvasFacts.Qltb_ge in A3]);
    (destruct (Js.Qltb d1 7) eqn:A7;
      [apply CanvasFacts.Qltb_lt in A7|apply CanvasFacts.Qltb_ge in A7]);
    (destruct (Js.Qltb d2 1) eqn:B1;
      [apply CanvasFacts.Qltb_lt in B1|apply CanvasFacts.Qltb_ge in B1]);
    (destruct (Js.Qltb d2 3) eqn:B3;
      [apply CanvasFacts.Qltb_lt in B3|apply CanvasFacts.Qltb_ge in B3]);
    (destruct (Js.Qltb d2 7) eqn:B7;
      [apply CanvasFacts.Qltb_lt in B7|apply CanvasFacts.Qltb_ge in B7]);
    try (exfalso; lra); minmax_cases; lra.
  - destruct (Js.Qltb d1 1); [|destruct (Js.Qltb d1 3);
                                 [|destruct (Js.Qltb d1 7)]];
      minmax_cases; lra.
  - lra.
Qed.

End WithBackend.

Import Samples MoreSamples.

Lemma checkSilence_absorbing_witness :
  state (checkSilence 400000 idle_store) = silent
  /\ checkSilence 900000 (checkSilence 400000 idle_store)
     = checkSilence 400000 idle_store.
Proof.
  assert (H : state (checkSilence 400000 idle_store) = silent)
    by reflexivity.
  split; [exact H|].
  exact (checkSilence_absorbing 400000 900000 idle_store H).
Defined.

Lemma data_events_keep_state_witness :
  isDataEvent (EvAddTask urgent) = true
  /\ state (step parse_due id no_intent no_interpretation createTask_down
                 no_backend_tasks 5000 (EvAddTask urgent) responding_store)
     = state responding_store.
Proof.
  assert (H : isDataEvent (EvAddTask urgent) = true) by reflexivity.
  split; [exact H|].
  exact (data_events_keep_state parse_due id no_intent no_interpretation
           createTask_down no_backend_tasks 5000 (EvAddTask urgent)
           responding_store H).
Defined.

Lemma selectAction_without_action_witness :
  (aiResponse idle_store = None
   \/ exists r, aiResponse idle_store = Some r
                /\ forall a, a ∈ actions r -> action_id a <> "a1")
  /\ selectAction createTask_ok "a1" idle_store = idle_store.
Proof.
  assert (H : aiResponse idle_store = None
              \/ exists r, aiResponse idle_store = Some r
                           /\ forall a, a ∈ actions r -> action_id a <> "a1")
    by (left; reflexivity).
  split; [exact H|].
  exact (selectAction_without_action createTask_ok "a1" idle_store H).
Defined.

Lemma calculateUrgency_sooner_witness :
  backend_priority taxes = backend_priority taxesLater
  /\ (calculateUrgency parse_dues 0 taxesLater
      <= calculateUrgency parse_dues 0 taxes)%Q.
Proof.
  assert (H : backend_priority taxes = backend_priority taxesLater)
    by reflexivity.
  split; [exact H|].
  pose proof (calculateUrgency_sooner_is_more_urgent parse_dues 0 taxes
                taxesLater H) as Hle.
  apply Hle. vm_compute. discriminate.
Defined.

End CanvasMore.

(** * More about the orbital layout and the orbit view *)

Module OrbitMore.

Import Canvas OrbitNodes.



(** [nodeSize] lies between 12 and 20 pixels for a priority between 0 and
    1 and grows with the priority. *)
Lemma nodeSize_range task :
  (0 <= task_priority task)%Q -> (task_priority task <= 1)%Q ->
  (12 <= nodeSize task)%Q /\ (nodeSize task <= 20)%Q.
Proof. unfold nodeSize. intros; split; lra. Qed.

End OrbitMore.

Module OrbitViewMore.

Import Tasks OrbitView.

(** The elements that [TaskOrbit] renders are numbered 0, 1, ... in
    order, every one carries the number of rendered elements as [total],
    so that [index < total] throughout, and there is at least one and at
    most eight of them. *)
Theorem TaskOrbit_numbering tasks shown :
  TaskOrbit tasks = Some shown ->
  index <$> shown = seq 0 (length shown)
  /\ (forall p, p ∈ shown ->
                total p = length shown /\ (index p < total p)%nat)
  /\ (1 <= length shown <= 8)%nat.
Proof.
  intros Hshown.
  assert (tasks <> []) as Hne by (intros ->; discriminate Hshown).
  rewrite (OrbitViewFacts.TaskOrbit_nonempty _ Hne) in Hshown.
  injection Hshown as <-.
  assert (length (take 8 tasks) = Nat.min (length tasks) 8) as Hlen.
  { rewrite length_take. lia. }
  rewrite length_imap. split; [|split].
  - apply list_eq. intros i.
    rewrite list_lookup_fmap, list_lookup_imap.
    destruct (take 8 tasks !! i) as [t|] eqn:Ht; simpl.
    + apply lookup_lt_Some in Ht. by rewrite lookup_seq_lt.
    + apply lookup_ge_None in Ht. by rewrite lookup_seq_ge.
  - intros p Hp. apply elem_of_lookup_imap in Hp as (i & t & -> & Ht).
    simpl. apply lookup_lt_Some in Ht. lia.
  - rewrite Hlen. destruct tasks; [done|]. simpl. lia.
Qed.

Import Samples.

Lemma TaskOrbit_numbering_witness :
  TaskOrbit storedTasks
  = Some (imap (fun index task => mkProps (id task) task index 4)
               storedTasks)
  /\ (1 <= length (imap (fun index task => mkProps (id task) task index 4)
                        storedTasks) <= 8)%nat.
Proof.
  assert (H : TaskOrbit storedTasks
              = Some (imap (fun index task =>
                              mkProps (id task) task index 4) storedTasks))
    by reflexivity.
  split; [exact H|].
  exact (proj2 (proj2 (TaskOrbit_numbering storedTasks _ H))).
Defined.

End OrbitViewMore.

(** * More about the task store *)

Module TaskStoreMore.

Import Tasks TaskStore TaskStoreActions Described MoreDescribed.

(** The array that [getTasksByOrbitalDistance] returns, in closed form. *)
Lemma getTasksByOrbitalDistance_value st (h : Heap) items :
  h !! tasks st = Some items ->
  exists result h',
    getTasksByOrbitalDistance st h = Some (result, h')
    /\ h' !! result
       = Some (sorted_items byOrbitalDistance (List.filter isOpen items)).
Proof.
  intros Hstore. unfold getTasksByOrbitalDistance.
  destruct (TaskStoreFacts.Array_spread_spec _ _ _ Hstore)
    as (copy & h1 & -> & _ & Hget1 & _).
  cbn [mbind option_bind].
  destruct (TaskStoreFacts.Array_filter_spec isOpen _ _ _ Hget1)
    as (kept & h2 & -> & _ & Hget2 & _).
  cbn [mbind option_bind].
  unfold Array_sort. rewrite Hget2. cbn [mbind option_bind].
  eexists _, _. split; [reflexivity|]. apply lookup_insert_eq.
Qed.





(** X12. [getPendingTasks] returns a new array with the open tasks of the
    store, in the order of the store, and changes no array that existed;
    [getTasksByOrbitalDistance] returns the same tasks, rearranged. *)
Theorem getPendingTasks_open st (h : Heap) items :
  h !! tasks st = Some items ->
  exists result h',
    getPendingTasks st h = Some (result, h')
    /\ h !! result = None
    /\ h' !! result = Some (List.filter isOpen items)
    /\ (forall a, is_Some (h !! a) -> h' !! a = h !! a)
    /\ exists result2 h2 sorted,
        getTasksByOrbitalDistance st h = Some (result2, h2)
        /\ h2 !! result2 = Some sorted
        /\ Permutation sorted (List.filter isOpen items).
Proof.
  intros Hstore. unfold getPendingTasks.
  destruct (TaskStoreFacts.Array_filter_spec isOpen _ _ _ Hstore)
    as (r & h' & -> & Hnew & Hget & Hold).
  exists r, h'. split; [done|]. split; [done|]. split; [done|].
  split; [done|].
  destruct (getTasksByOrbitalDistance_value _ _ _ Hstore)
    as (result & h2 & Hrun & Hres).
  eexists result, h2, _. split; [done|]. split; [done|].
  apply TaskStoreFacts.sorted_items_perm.
Qed.

(** *** Actions that write the answer of the backend into the list *)

Lemma Array_map_spec f a (h : Heap) items :
  h !! a = Some items ->
  exists r h',
    Array_map f a h = Some (r, h')
    /\ h !! r = None
    /\ h' !! r = Some (f <$> items)
    /\ forall b, is_Some (h !! b) -> h' !! b = h !! b.
Proof.
  intros Ha. unfold Array_map. rewrite Ha.
  destruct (TaskStoreFacts.alloc_spec (f <$> items) h) as (H1 & H2 & H3).
  exists (alloc (f <$> items) h).1, (alloc (f <$> items) h).2.
  split; [cbn [mbind option_bind]; by destruct (alloc (f <$> items) h)|].
  split; [exact H1|]. split; [exact H2|exact H3].
Qed.

Lemma Array_append_spec a t (h : Heap) items :
  h !! a = Some items ->
  exists r h',
    Array_append a t h = Some (r, h')
    /\ h !! r = None
    /\ h' !! r = Some (items ++ [t])%list
    /\ forall b, is_Some (h !! b) -> h' !! b = h !! b.
Proof.
  intros Ha. unfold Array_append. rewrite Ha.
  destruct (TaskStoreFacts.alloc_spec (items ++ [t])%list h) as (H1 & H2 & H3).
  exists (alloc (items ++ [t])%list h).1, (alloc (items ++ [t])%list h).2.
  split; [cbn [mbind option_bind]; by destruct (alloc (items ++ [t])%list h)|].
  split; [exact H1|]. split; [exact H2|exact H3].
Qed.

(** The list after the answer [data] has been written over id [taskId]. *)
Lemma replaceById_list taskId data (items : list Task) :
  length (replaceById taskId data <$> items) = length items
  /\ (forall i t, items !! i = Some t ->
        (replaceById taskId data <$> items) !! i
        = Some (if decide (id t = taskId) then data else t))
  /\ ((forall t, t ∈ items -> id t <> taskId) ->
      replaceById taskId data <$> items = items).
Proof.
  split; [apply length_fmap|]. split.
  - intros i t Hi. by rewrite list_lookup_fmap, Hi.
  - intros Hnone. rewrite <- (list_fmap_id items) at 2.
    apply list_fmap_ext. intros i t Hi. unfold replaceById.
    rewrite decide_False; [done|].
    apply Hnone. by eapply list_elem_of_lookup_2.
Qed.

Section WithBackend.

Variable get_tasks : Js.Settled (list Task).
Variable post_task : TaskCreate -> Js.Settled Task.
Variable patch_status : string -> TaskStatus -> Js.Settled Task.
Variable post_start : string -> Js.Settled Task.
Variable post_complete : string -> Js.Settled Task.
Variable post_abandon : string -> option string -> Js.Settled Task.

(** X13. When the backend accepts [completeTask], the store gets a new
    array of the same length in which the answer stands at every position
    whose task had the id and every other task is as before; the focus is
    dropped exactly when the focused task had the id; the old array is not
    modified.  When no task has the id the list keeps its contents. *)
Theorem completeTask_writes_answer taskId st (h : Heap) items data :
  h !! tasks st = Some items ->
  post_complete taskId = inr data ->
  exists st' h' items',
    completeTask post_complete taskId st h = Some (st', h')
    /\ h' !! tasks st' = Some items'
    /\ h' !! tasks st = Some items
    /\ length items' = length items
    /\ (forall i t, items !! i = Some t ->
          items' !! i = Some (if decide (id t = taskId) then data else t))
    /\ ((forall t, t ∈ items -> id t <> taskId) -> items' = items)
    /\ focusedTask st'
       = match focusedTask st with
         | Some t => if decide (id t = taskId) then None else Some t
         | None => None
         end
    /\ error st' = error st
    /\ isLoading st' = isLoading st.
Proof.
  intros Hstore Hok. unfold completeTask. rewrite Hok.
  destruct (Array_map_spec (replaceById taskId data) _ _ _ Hstore)
    as (r & h' & -> & Hnew & Hget & Hold).
  cbn [mbind option_bind].
  destruct (replaceById_list taskId data items) as (Hlen & Hat & Hnone).
  eexists _, h', _. split; [reflexivity|]. simpl.
  split; [exact Hget|]. split; [by rewrite Hold|].
  split; [exact Hlen|]. split; [exact Hat|]. split; [exact Hnone|].
  split; [reflexivity|]. done.
Qed.

(** X14. [startTask] puts the answer of the backend in focus whether or
    not a task of the list has the id; a list without the id keeps its
    contents, so the focused task may be one the list does not hold. *)
Theorem startTask_focuses_answer taskId st (h : Heap) items data :
  h !! tasks st = Some items ->
  post_start taskId = inr data ->
  exists st' h' items',
    startTask post_start taskId st h = Some (st', h')
    /\ focusedTask st' = Some data
    /\ h' !! tasks st' = Some items'
    /\ items' = replaceById taskId data <$> items
    /\ ((forall t, t ∈ items -> id t <> taskId) -> items' = items).
Proof.
  intros Hstore Hok. unfold startTask. rewrite Hok.
  destruct (Array_map_spec (replaceById taskId data) _ _ _ Hstore)
    as (r & h' & -> & Hnew & Hget & Hold).
  cbn [mbind option_bind].
  eexists _, h', _. split; [reflexivity|]. simpl.
  split; [reflexivity|]. split; [exact Hget|]. split; [reflexivity|].
  apply replaceById_list.
Qed.

(** X15. [createTask] returns the task of the backend and appends it, once
    and at the end, to a new array of the store; when the backend refuses
    it returns [null], stores the message of the error and leaves the list
    and the heap as they are. *)
Theorem createTask_appends data st (h : Heap) items :
  h !! tasks st = Some items ->
  match post_task data with
  | inr task =>
      exists st' h',
        createTask post_task data st h = Some (Some task, st', h')
        /\ h' !! tasks st' = Some (items ++ [task])%list
        /\ h' !! tasks st = Some items
        /\ st' = set_tasks (tasks st') st
  | inl e =>
      createTask post_task data st h
      = Some (None,
              set_error (Some (errorMessage e "Failed to create task")) st,
              h)
  end.
Proof.
  intros Hstore. unfold createTask.
  destruct (post_task data) as [e|task]; [done|].
  destruct (Array_append_spec _ task _ _ Hstore)
    as (r & h' & -> & Hnew & Hget & Hold).
  cbn [mbind option_bind].
  eexists _, h'. split; [reflexivity|]. simpl.
  split; [exact Hget|]. split; [by rewrite Hold|done].
Qed.

(** A refusal of the backend never touches the tasks: after a failed
    [updateTaskStatus], [startTask], [completeTask] or [abandonTask] the
    store differs from the one before only in its error, which is the
    message of the failure, and the heap is the same. *)
Theorem failed_action_keeps_tasks taskId status reason st (h : Heap) m :
  (patch_status taskId status = inl (Js.ErrorObj m) ->
   updateTaskStatus patch_status taskId status st h
   = Some (set_error (Some m) st, h))
  /\ (post_start taskId = inl (Js.ErrorObj m) ->
      startTask post_start taskId st h = Some (set_error (Some m) st, h))
  /\ (post_complete taskId = inl (Js.ErrorObj m) ->
      completeTask post_complete taskId st h
      = Some (set_error (Some m) st, h))
  /\ (post_abandon taskId reason = inl (Js.ErrorObj m) ->
      abandonTask post_abandon taskId reason st h
      = Some (set_error (Some m) st, h)).
Proof.
  unfold updateTaskStatus, startTask, completeTask, abandonTask.
  repeat split; by intros ->.
Qed.

End WithBackend.

Import Samples MoreSamples.


Lemma getPendingTasks_open_witness :
  taskHeap !! tasks taskState = Some storedTasks
  /\ exists result h',
      getPendingTasks taskState taskHeap = Some (result, h')
      /\ h' !! result = Some (List.filter isOpen storedTasks).
Proof.
  assert (H : taskHeap !! tasks taskState = Some storedTasks)
    by reflexivity.
  split; [exact H|].
  destruct (getPendingTasks_open taskState taskHeap storedTasks H)
    as (result & h' & Hrun & _ & Hres & _).
  exists result, h'. split; [exact Hrun|exact Hres].
Defined.

Lemma completeTask_writes_answer_witness :
  taskHeap !! tasks taskState = Some storedTasks
  /\ complete_ok "near" = inr startedTask
  /\ exists st' h' items',
      completeTask complete_ok "near" taskState taskHeap = Some (st', h')
      /\ h' !! tasks st' = Some items'
      /\ length items' = length storedTasks.
Proof.
  assert (H1 : taskHeap !! tasks taskState = Some storedTasks)
    by reflexivity.
  assert (H2 : complete_ok "near" = inr startedTask) by reflexivity.
  split; [exact H1|]. split; [exact H2|].
  destruct (completeTask_writes_answer complete_ok "near" taskState
              taskHeap storedTasks startedTask H1 H2)
    as (st' & h' & items' & Hrun & Hget & _ & Hlen & _).
  exists st', h', items'. split; [exact Hrun|]. split; [exact Hget|exact Hlen].
Defined.

Lemma startTask_focuses_answer_witness :
  taskHeap !! tasks taskState = Some storedTasks
  /\ complete_ok "ghost" = inr startedTask
  /\ exists st' h' items',
      startTask complete_ok "ghost" taskState taskHeap = Some (st', h')
      /\ focusedTask st' = Some startedTask
      /\ h' !! tasks st' = Some items'.
Proof.
  assert (H1 : taskHeap !! tasks taskState = Some storedTasks)
    by reflexivity.
  assert (H2 : complete_ok "ghost" = inr startedTask) by reflexivity.
  split; [exact H1|]. split; [exact H2|].
  destruct (startTask_focuses_answer complete_ok "ghost" taskState
              taskHeap storedTasks startedTask H1 H2)
    as (st' & h' & items' & Hrun & Hfocus & Hget & _).
  exists st', h', items'.
  split; [exact Hrun|]. split; [exact Hfocus|exact Hget].
Defined.

Lemma createTask_appends_witness :
  taskHeap !! tasks taskState = Some storedTasks
  /\ createTask (fun _ => inl (Js.ErrorObj "Bad Request"))
       (mkTaskCreate "Read" None None None None None None None)
       taskState taskHeap
     = Some (None, set_error (Some "Bad Request") taskState, taskHeap).
Proof.
  assert (H : taskHeap !! tasks taskState = Some storedTasks)
    by reflexivity.
  split; [exact H|].
  exact (createTask_appends (fun _ => inl (Js.ErrorObj "Bad Request"))
           (mkTaskCreate "Read" None None None None None None None)
           taskState taskHeap storedTasks H).
Defined.

End TaskStoreMore.

(** * More about the offline queue *)

Module OfflineMore.

Import Offline OfflineHook Described MoreDescribed.

Local Open Scope list_scope.

Lemma NoDup_fmap_app_cons {A K} (key : A -> K) kept x rest :
  NoDup (key <$> (kept ++ x :: rest)) -> NoDup (key <$> (kept ++ rest)).
Proof.
  rewrite !fmap_app, fmap_cons, !NoDup_app, NoDup_cons.
  intros (Hkept & Hdisj & _ & Hrest). split; [done|]. split; [|done].
  intros k Hk Hin. apply (Hdisj k Hk). by apply list_elem_of_further.
Qed.

Lemma filter_all {A} (f : A -> bool) (l : list A) :
  (forall x, x ∈ l -> f x = true) -> List.filter f l = l.
Proof.
  induction l as [|x l IH]; intros Hall; [done|]. simpl.
  rewrite (Hall x) by apply list_elem_of_here.
  rewrite IH; [done|]. intros y Hy. apply Hall. by apply list_elem_of_further.
Qed.

Lemma filter_none {A} (f : A -> bool) (l : list A) :
  (forall x, x ∈ l -> f x = false) -> List.filter f l = [].
Proof.
  induction l as [|x l IH]; intros Hall; [done|]. simpl.
  rewrite (Hall x) by apply list_elem_of_here.
  apply IH. intros y Hy. apply Hall. by apply list_elem_of_further.
Qed.

(** Deleting the key of one record of a store without duplicate keys
    removes that record and nothing else. *)
Lemma filter_out_key {A K} `{EqDecision K} (key : A -> K)
    (kept : list A) (x : A) (rest : list A) :
  NoDup (key <$> (kept ++ x :: rest)) ->
  List.filter (fun r => negb (bool_decide (key r = key x)))
              (kept ++ x :: rest)
  = kept ++ rest.
Proof.
  intros Hnodup. rewrite fmap_app, fmap_cons in Hnodup.
  apply NoDup_app in Hnodup as (_ & Hdisj & Hrest).
  apply NoDup_cons in Hrest as [Hx _].
  rewrite List.filter_app. simpl.
  rewrite bool_decide_eq_true_2 by done. simpl.
  rewrite !filter_all; [done| |].
  - intros y Hy. apply negb_true_iff, bool_decide_eq_false.
    intros Heq. apply Hx. rewrite <- Heq. by apply list_elem_of_fmap_2.
  - intros y Hy. apply negb_true_iff, bool_decide_eq_false.
    intros Heq. apply (Hdisj (key y)); [by apply list_elem_of_fmap_2|].
    rewrite Heq. apply list_elem_of_here.
Qed.

(** *** Adding and removing entries *)

(** No queued intent has the key that the generator hands out next. *)
Lemma next_key_unused db r :
  queueReady db ->
  r ∈ getPendingIntents db ->
  intent_id r <> Some (keyGenerator (pending_intents db)).
Proof.
  intros [(_ & Hkeys & _) _] Hr Hid.
  destruct (Hkeys r Hr) as (k & Hk & _ & Hlt).
  rewrite Hk in Hid. injection Hid as ->. lia.
Qed.

(** X16. [addPendingIntent] on a valid queue resolves with the key that the
    generator assigns, which no queued intent has; the new record, with
    that key, is the last of the queue, the other records and the task
    queue are as before, and the queue is valid again. *)
Theorem addPendingIntent_fresh text context nowISO db :
  queueReady db ->
  let id := (addPendingIntent text context nowISO db).1 in
  let db' := (addPendingIntent text context nowISO db).2 in
  (forall r, r ∈ getPendingIntents db -> intent_id r <> Some id)
  /\ getPendingIntents db'
     = (getPendingIntents db
        ++ [mkPendingIntent (Some id) text context nowISO])%list
  /\ getPendingTasks db' = getPendingTasks db
  /\ (0 < id)%N
  /\ queueReady db'.
Proof.
  intros [Hvalid Hgen]. cbv zeta.
  destruct (OfflineFacts.addPendingIntent_valid text context nowISO db
              Hvalid Hgen) as [Hvalid' Hgen'].
  split; [|split; [reflexivity|split; [reflexivity|split; [exact Hgen|]]]].
  - intros r Hr. by apply next_key_unused.
  - by split.
Qed.

(** X17. Removing the intent that was just added gives back the queue as
    it was before the addition. *)
Theorem add_remove_intent text context nowISO db :
  queueReady db ->
  getPendingIntents
    (removePendingIntent (addPendingIntent text context nowISO db).1
                         (addPendingIntent text context nowISO db).2)
  = getPendingIntents db
  /\ getPendingTasks
       (removePendingIntent (addPendingIntent text context nowISO db).1
                            (addPendingIntent text context nowISO db).2)
     = getPendingTasks db.
Proof.
  intros Hready. split; [|reflexivity].
  pose proof (fun r => next_key_unused db r Hready) as Hfresh.
  unfold getPendingIntents in *. simpl in *.
  rewrite List.filter_app. simpl.
  rewrite bool_decide_eq_true_2 by done. simpl.
  rewrite app_nil_r. apply filter_all.
  intros r Hr. apply negb_true_iff, bool_decide_eq_false. by apply Hfresh.
Qed.

(** X18. The task queue holds at most one action per task: after
    [addPendingTask] exactly one record has the task's id, it carries the
    new action and data, and the records of the other tasks are as before,
    in order.  An action queued earlier for the same task is gone. *)
Theorem addPendingTask_replaces task nowISO db :
  let stored :=
    mkPendingTask (task_id task) (action task) (data task) nowISO in
  let after := getPendingTasks (addPendingTask task nowISO db) in
  List.filter (fun r => bool_decide (task_id r = task_id task)) after
  = [stored]
  /\ List.filter (fun r => negb (bool_decide (task_id r = task_id task)))
                 after
     = List.filter (fun r => negb (bool_decide (task_id r = task_id task)))
                   (getPendingTasks db)
  /\ (NoDup (task_id <$> getPendingTasks db) -> NoDup (task_id <$> after))
  /\ getPendingIntents (addPendingTask task nowISO db)
     = getPendingIntents db.
Proof.
  cbv zeta. unfold getPendingTasks, addPendingTask, tasks_put. simpl.
  set (others := List.filter _ (pending_tasks db)).
  assert (forall r, r ∈ others -> task_id r <> task_id task) as Hothers.
  { intros r Hr. apply list_elem_of_In, List.filter_In in Hr as [_ Hr].
    by apply negb_true_iff, bool_decide_eq_false in Hr. }
  split; [|split; [|split; [|reflexivity]]].
  - rewrite List.filter_app. simpl.
    rewrite bool_decide_eq_true_2 by done.
    assert (List.filter (fun r => bool_decide (task_id r = task_id task))
                        others = []) as ->; [|done].
    apply filter_none. intros r Hr.
    by apply bool_decide_eq_false, Hothers.
  - rewrite List.filter_app. simpl.
    rewrite bool_decide_eq_true_2 by done. simpl. rewrite app_nil_r.
    apply filter_all. intros r Hr.
    by apply negb_true_iff, bool_decide_eq_false, Hothers.
  - intros Hnodup. rewrite fmap_app. apply NoDup_app.
    split; [|split; [|apply NoDup_singleton]].
    + unfold others. clear Hothers others.
      induction (pending_tasks db) as [|r l IH]; [constructor|].
      simpl in *. apply NoDup_cons in Hnodup as [Hr Hl].
      destruct (negb _); [|by apply IH].
      simpl. apply NoDup_cons. split; [|by apply IH].
      intros Hin. apply Hr.
      apply list_elem_of_fmap in Hin as (r' & -> & Hr').
      apply list_elem_of_fmap_2.
      apply list_elem_of_In, List.filter_In in Hr' as [Hr' _].
      by apply list_elem_of_In.
    + intros k Hk Hin. apply list_elem_of_singleton in Hin as ->.
      apply list_elem_of_fmap in Hk as (r & Hid & Hr).
      by apply (Hothers r Hr).
Qed.

(** *** What a pass leaves in the queue *)

Section Passes.

Variable Server : Type.
Variable api_post : Server -> PostRequest -> Js.Settled unit * Server.

Local Abbreviation syncIntents' := (syncIntents Server api_post).
Local Abbreviation syncTasks' := (syncTasks Server api_post).

Lemma failedEntries_cons {A} (x : A) rest ex log :
  failedEntries (x :: rest) (ex :: log)
  = if accepted ex then failedEntries rest log
    else x :: failedEntries rest log.
Proof. unfold failedEntries. simpl. by destruct (accepted ex). Qed.

Lemma syncIntents_keeps_failed pending :
  forall kept srv db,
    intent_records (pending_intents db) = (kept ++ pending)%list ->
    NoDup (intent_id <$> (kept ++ pending)) ->
    (forall r, r ∈ pending -> exists k, intent_id r = Some k /\ (0 < k)%N) ->
    intent_records
      (pending_intents (database_after (syncIntents' pending srv db)))
    = (kept ++ failedEntries pending
                (exchanges (syncIntents' pending srv db)))%list.
Proof.
  induction pending as [|intent rest IH]; intros kept srv db Hrec Hnodup Hkeys.
  - simpl. rewrite Hrec. done.
  - destruct (Hkeys intent (list_elem_of_here _ _)) as (k & Hk & Hpos).
    assert (forall r, r ∈ rest ->
                      exists k, intent_id r = Some k /\ (0 < k)%N) as Hkeys'.
    { intros r Hr. apply Hkeys. by apply list_elem_of_further. }
    cbn [syncIntents].
    destruct (api_post srv (intentRequest intent)) as [[e|u] srv'].
    + cbn [database_after exchanges]. rewrite failedEntries_cons.
      cbn [accepted].
      rewrite (IH (kept ++ [intent])%list srv' db).
      * by rewrite <- app_assoc.
      * by rewrite <- app_assoc.
      * by rewrite <- app_assoc.
      * exact Hkeys'.
    + cbn [database_after exchanges]. rewrite failedEntries_cons.
      cbn [accepted].
      assert (truthy_id (intent_id intent) = Some k) as ->.
      { apply OfflineFacts.truthy_id_Some. split; [done|lia]. }
      apply IH; [|by apply NoDup_fmap_app_cons in Hnodup|exact Hkeys'].
      unfold removePendingIntent, intents_delete. simpl. rewrite Hrec.
      rewrite <- Hk. by apply (filter_out_key intent_id).
Qed.

Lemma syncTasks_keeps_failed pending :
  forall kept srv db,
    pending_tasks db = (kept ++ pending)%list ->
    NoDup (task_id <$> (kept ++ pending)) ->
    pending_tasks (database_after (syncTasks' pending srv db))
    = (kept ++ failedEntries pending
                (exchanges (syncTasks' pending srv db)))%list.
Proof.
  induction pending as [|task rest IH]; intros kept srv db Hrec Hnodup.
  - simpl. rewrite Hrec. done.
  - cbn [syncTasks].
    destruct (api_post srv (taskRequest task)) as [[e|u] srv'].
    + cbn [database_after exchanges]. rewrite failedEntries_cons.
      cbn [accepted].
      rewrite (IH (kept ++ [task])%list srv' db).
      * by rewrite <- app_assoc.
      * by rewrite <- app_assoc.
      * by rewrite <- app_assoc.
    + cbn [database_after exchanges]. rewrite failedEntries_cons.
      cbn [accepted].
      apply IH; [|by apply NoDup_fmap_app_cons in Hnodup].
      unfold removePendingTask, tasks_delete. simpl. rewrite Hrec.
      by apply (filter_out_key task_id).
Qed.

Lemma accepted_no_failures_intents pending srv db :
  acceptsAll api_post ->
  failedEntries pending (exchanges (syncIntents' pending srv db)) = [].
Proof.
  intros Hall. revert srv db.
  induction pending as [|intent rest IH]; intros srv db; [done|].
  cbn [syncIntents].
  destruct (Hall srv (intentRequest intent)) as (srv' & ->).
  cbn [exchanges]. rewrite failedEntries_cons. cbn [accepted]. apply IH.
Qed.

Lemma accepted_no_failures_tasks pending srv db :
  acceptsAll api_post ->
  failedEntries pending (exchanges (syncTasks' pending srv db)) = [].
Proof.
  intros Hall. revert srv db.
  induction pending as [|task rest IH]; intros srv db; [done|].
  cbn [syncTasks].
  destruct (Hall srv (taskRequest task)) as (srv' & ->).
  cbn [exchanges]. rewrite failedEntries_cons. cbn [accepted]. apply IH.
Qed.

Lemma refused_keeps_database_intents pending srv db :
  refusesAll api_post ->
  database_after (syncIntents' pending srv db) = db.
Proof.
  intros Hall. revert srv.
  induction pending as [|intent rest IH]; intros srv; [done|].
  cbn [syncIntents].
  destruct (Hall srv (intentRequest intent)) as (e & srv' & ->).
  cbn [database_after]. apply IH.
Qed.

Lemma refused_keeps_database_tasks pending srv db :
  refusesAll api_post ->
  database_after (syncTasks' pending srv db) = db.
Proof.
  intros Hall. revert srv.
  induction pending as [|task rest IH]; intros srv; [done|].
  cbn [syncTasks].
  destruct (Hall srv (taskRequest task)) as (e & srv' & ->).
  cbn [database_after]. apply IH.
Qed.

(** X19. After a pass over a valid queue the store holds exactly the
    entries whose own request failed, in the order they had; a second pass
    sends requests for these entries and no others. *)
Theorem pass_keeps_failures_in_order srv db :
  queueValid db ->
  let first := syncIntents' (getPendingIntents db) srv db in
  let again :=
    syncIntents' (getPendingIntents (database_after first))
                 (server_after first) (database_after first) in
  let firstTasks := syncTasks' (getPendingTasks db) srv db in
  getPendingIntents (database_after first)
  = failedEntries (getPendingIntents db) (exchanges first)
  /\ sent <$> exchanges again
     = intentRequest
       <$> failedEntries (getPendingIntents db) (exchanges first)
  /\ getPendingTasks (database_after firstTasks)
     = failedEntries (getPendingTasks db) (exchanges firstTasks).
Proof.
  intros (Hnodup & Hkeys & Htasks). cbv zeta.
  assert (getPendingIntents
            (database_after (syncIntents' (getPendingIntents db) srv db))
          = failedEntries (getPendingIntents db)
              (exchanges (syncIntents' (getPendingIntents db) srv db)))
    as Hfirst.
  { unfold getPendingIntents at 1. cbn [result intents_getAll].
    apply (syncIntents_keeps_failed _ [] srv db); [done|done|].
    intros r Hr. destruct (Hkeys r Hr) as (k & Hk & Hpos & _). eauto. }
  split; [exact Hfirst|]. split.
  - rewrite OfflineFacts.syncIntents_sent. by rewrite Hfirst.
  - unfold getPendingTasks at 1. cbn [result tasks_getAll].
    by apply (syncTasks_keeps_failed _ [] srv db).
Qed.

(** X20. When the backend accepts every request, an online
    [syncPendingData] on a valid queue sends one request per entry, leaves
    both stores empty and reports it: it returns [true], with no pending
    sync, counts of zero, the sync time set and [isSyncing] off. *)
Theorem sync_empties_accepted_queue now st srv db :
  queueValid db ->
  acceptsAll api_post ->
  exists st' intentsPass tasksPass,
    syncPendingData Server api_post true now st srv db
    = (true, st', intentsPass, tasksPass)
    /\ sent <$> exchanges intentsPass
       = intentRequest <$> getPendingIntents db
    /\ sent <$> exchanges tasksPass = taskRequest <$> getPendingTasks db
    /\ getPendingIntents (database_after tasksPass) = []
    /\ getPendingTasks (database_after tasksPass) = []
    /\ st' = mkOfflineState (isOnline st) false (0, 0)%nat false (Some now).
Proof.
  intros (Hnodup & Hkeys & Htasks) Hall.
  unfold syncPendingData. cbn [negb].
  set (r1 := syncIntents' (getPendingIntents db) srv db).
  set (r2 := syncTasks' (getPendingTasks (database_after r1))
                        (server_after r1) (database_after r1)).
  assert (getPendingIntents (database_after r1) = []) as Hi.
  { unfold getPendingIntents at 1. cbn [result intents_getAll]. unfold r1.
    rewrite (syncIntents_keeps_failed _ [] srv db); [|done|done|].
    - by rewrite accepted_no_failures_intents.
    - intros r Hr. destruct (Hkeys r Hr) as (k & Hk & Hpos & _). eauto. }
  assert (getPendingTasks (database_after r1) = getPendingTasks db) as Ht1.
  { unfold getPendingTasks. cbn [result tasks_getAll]. unfold r1.
    apply OfflineFacts.syncIntents_tasks. }
  assert (getPendingTasks (database_after r2) = []) as Ht.
  { unfold getPendingTasks at 1. cbn [result tasks_getAll]. unfold r2.
    rewrite (syncTasks_keeps_failed _ [] (server_after r1)
               (database_after r1)).
    - by rewrite accepted_no_failures_tasks.
    - done.
    - unfold getPendingTasks in Ht1. cbn [result tasks_getAll] in Ht1.
      change (NoDup (task_id <$> pending_tasks (database_after r1))).
      by rewrite Ht1. }
  assert (getPendingIntents (database_after r2) = []) as Hi2.
  { unfold getPendingIntents in *. cbn [result intents_getAll] in *.
    unfold r2. by rewrite OfflineFacts.syncTasks_intents. }
  eexists _, r1, r2. split; [reflexivity|].
  split; [apply OfflineFacts.syncIntents_sent|].
  split; [unfold r2; rewrite OfflineFacts.syncTasks_sent; by rewrite Ht1|].
  split; [exact Hi2|]. split; [exact Ht|].
  unfold getPendingSyncCount. by rewrite Hi2, Ht.
Qed.

(** X21. When the backend refuses every request, [syncPendingData] still
    sends one request per entry, in order, and the database is left as it
    was; the hook keeps reporting a pending sync exactly when the queue is
    not empty. *)
Theorem sync_keeps_refused_queue now st srv db :
  refusesAll api_post ->
  exists st' intentsPass tasksPass,
    syncPendingData Server api_post true now st srv db
    = (true, st', intentsPass, tasksPass)
    /\ sent <$> exchanges intentsPass
       = intentRequest <$> getPendingIntents db
    /\ sent <$> exchanges tasksPass = taskRequest <$> getPendingTasks db
    /\ database_after intentsPass = db
    /\ database_after tasksPass = db
    /\ (hasPendingSync st' = false
        <-> getPendingIntents db = [] /\ getPendingTasks db = []).
Proof.
  intros Hall. unfold syncPendingData. cbn [negb].
  set (r1 := syncIntents' (getPendingIntents db) srv db).
  assert (database_after r1 = db) as Hdb1
    by apply refused_keeps_database_intents, Hall.
  rewrite Hdb1.
  set (r2 := syncTasks' (getPendingTasks db) (server_after r1) db).
  assert (database_after r2 = db) as Hdb2
    by apply refused_keeps_database_tasks, Hall.
  eexists _, r1, r2. split; [reflexivity|].
  split; [apply OfflineFacts.syncIntents_sent|].
  split; [apply OfflineFacts.syncTasks_sent|].
  split; [exact Hdb1|]. split; [exact Hdb2|].
  rewrite Hdb2. cbn [hasPendingSync]. unfold getPendingSyncCount.
  cbn [fst snd].
  rewrite orb_false_iff, !bool_decide_eq_false.
  destruct (getPendingIntents db), (getPendingTasks db); simpl;
    split; intros [??]; try done; split; try done; lia.
Qed.

End Passes.

Import Samples MoreSamples.

Lemma queued_ready : queueReady queued.
Proof.
  split; [|done]. split; [|split].
  - apply NoDup_singleton.
  - intros r Hr. apply list_elem_of_singleton in Hr as ->.
    exists 1%N. done.
  - apply NoDup_singleton.
Qed.

Lemma accepting_post_acceptsAll : acceptsAll accepting_post.
Proof. intros srv request. by exists srv. Qed.

Lemma refusing_post_refusesAll : refusesAll refusing_post.
Proof. intros srv request. by eexists _, srv. Qed.

Lemma addPendingIntent_fresh_witness :
  queueReady queued
  /\ getPendingIntents (addPendingIntent "call mum" None "t" queued).2
     = [buyMilk; mkPendingIntent (Some 2%N) "call mum" None "t"].
Proof.
  split; [exact queued_ready|].
  exact (proj1 (proj2 (addPendingIntent_fresh "call mum" None "t" queued
                         queued_ready))).
Defined.

Lemma add_remove_intent_witness :
  queueReady queued
  /\ getPendingIntents
       (removePendingIntent (addPendingIntent "call mum" None "t" queued).1
                            (addPendingIntent "call mum" None "t" queued).2)
     = getPendingIntents queued.
Proof.
  split; [exact queued_ready|].
  exact (proj1 (add_remove_intent "call mum" None "t" queued queued_ready)).
Defined.

Lemma pass_keeps_failures_witness :
  queueValid queued
  /\ getPendingIntents
       (database_after
          (syncIntents unit refusing_post (getPendingIntents queued) tt
                       queued))
     = failedEntries (getPendingIntents queued)
         (exchanges
            (syncIntents unit refusing_post (getPendingIntents queued) tt
                         queued)).
Proof.
  split; [exact (proj1 queued_ready)|].
  exact (proj1 (pass_keeps_failures_in_order unit refusing_post tt queued
                  (proj1 queued_ready))).
Defined.

Lemma sync_empties_accepted_queue_witness :
  queueValid queued
  /\ acceptsAll accepting_post
  /\ exists st' intentsPass tasksPass,
      syncPendingData unit accepting_post true 5000 hookState tt queued
      = (true, st', intentsPass, tasksPass)
      /\ getPendingIntents (database_after tasksPass) = []
      /\ getPendingTasks (database_after tasksPass) = [].
Proof.
  split; [exact (proj1 queued_ready)|].
  split; [exact accepting_post_acceptsAll|].
  destruct (sync_empties_accepted_queue unit accepting_post 5000 hookState
              tt queued (proj1 queued_ready) accepting_post_acceptsAll)
    as (st' & r1 & r2 & Hrun & _ & _ & Hi & Ht & _).
  exists st', r1, r2. split; [exact Hrun|]. split; [exact Hi|exact Ht].
Defined.

Lemma sync_keeps_refused_queue_witness :
  refusesAll refusing_post
  /\ exists st' intentsPass tasksPass,
      syncPendingData unit refusing_post true 5000 hookState tt queued
      = (true, st', intentsPass, tasksPass)
      /\ database_after tasksPass = queued.
Proof.
  split; [exact refusing_post_refusesAll|].
  destruct (sync_keeps_refused_queue unit refusing_post 5000 hookState
              tt queued refusing_post_refusesAll)
    as (st' & r1 & r2 & Hrun & _ & _ & _ & Hdb & _).
  exists st', r1, r2. split; [exact Hrun|exact Hdb].
Defined.

End OfflineMore.

(** * The cache store *)

Module OfflineCacheFacts.

Import Offline OfflineCache.


(** The date that [setCache] computes for a whole number of minutes. *)
Lemma timeClip_minutes (now minutes : Z) :
  (Z.abs (now + minutes * 60000) <= maxTime)%Z ->
  timeClip (inject_Z now + inject_Z minutes * 60 * 1000)
  = Some (now + minutes * 60000)%Z.
Proof.
  intros Hrange. unfold timeClip.
  assert (inject_Z now + inject_Z minutes * 60 * 1000
          == inject_Z (now + minutes * 60000))%Q as Heq.
  { rewrite inject_Z_plus, inject_Z_mult.
    change (inject_Z 60000) with (60000 # 1). lra. }
  assert (Qle_bool (Qabs (inject_Z now + inject_Z minutes * 60 * 1000))
                   (inject_Z maxTime) = true) as ->.
  { apply Qle_bool_iff, Qabs_Qle_condition. rewrite Heq.
    rewrite <- inject_Z_opp, <- !Zle_Qle. lia. }
  f_equal. unfold truncate.
  destruct (Qle_bool 0 _) eqn:Hsign.
  - rewrite Heq. apply Qfloor_Z.
  - rewrite Heq. apply Qceiling_Z.
Qed.

(** X22. A value stored with [setCache] is returned by [getCache] under
    its key until its date has passed, the instant of the date included;
    afterwards [getCache] returns [null] and the record is deleted, which
    leaves the store without the key.  Reading and writing one key never
    changes what the store holds under another. *)
Theorem cache_round_trip key data ttlMinutes now store expires :
  timeClip (inject_Z now + ttlMinutes * 60 * 1000) = Some expires ->
  let store' := (setCache key data ttlMinutes now store).2 in
  (setCache key data ttlMinutes now store).1 = inr tt
  /\ (forall now', (now' <= expires)%Z ->
        getCache key now' store' = (Some data, store'))
  /\ (forall now', (expires < now')%Z ->
        getCache key now' store' = (None, delete key store))
  /\ (forall other now',
        other <> key ->
        store' !! other = store !! other
        /\ (getCache other now' store').1 = (getCache other now' store).1
        /\ (getCache other now' store).2 !! key = store !! key).
Proof.
  intros Hclip. unfold setCache. rewrite Hclip. cbn [fst snd].
  split; [done|]. split; [|split].
  - intros now' Hle. unfold getCache. rewrite lookup_insert_eq.
    unfold expiredAt. simpl. by rewrite bool_decide_eq_false_2 by lia.
  - intros now' Hlt. unfold getCache. rewrite lookup_insert_eq.
    unfold expiredAt. simpl. rewrite bool_decide_eq_true_2 by lia.
    unfold deleteCache. by rewrite delete_insert_eq.
  - intros other now' Hne.
    assert (<[key := mkCachedData key data now (Some expires)]> store
              !! other = store !! other) as Hother
      by by apply lookup_insert_ne.
    split; [exact Hother|]. unfold getCache. rewrite Hother.
    destruct (store !! other) as [record|]; [|done].
    destruct (expiredAt now' record); [|done].
    split; [done|]. unfold deleteCache. simpl. by apply lookup_delete_ne.
Qed.

(** When the date is out of the range of [Date], [setCache] rejects and
    stores nothing. *)
Lemma setCache_out_of_range key data ttlMinutes now store :
  timeClip (inject_Z now + ttlMinutes * 60 * 1000) = None ->
  setCache key data ttlMinutes now store
  = (inl (Js.ErrorObj "Invalid time value"), store).
Proof. intros Hclip. unfold setCache. by rewrite Hclip. Qed.


Import MoreSamples.

Lemma cache_round_trip_witness :
  timeClip (inject_Z 1000 + 1 * 60 * 1000) = Some 61000%Z
  /\ getCache "profile" 61000 (setCache "profile" "{}" 1 1000 ∅).2
     = (Some "{}", (setCache "profile" "{}" 1 1000 ∅).2).
Proof.
  assert (H : timeClip (inject_Z 1000 + 1 * 60 * 1000) = Some 61000%Z)
    by reflexivity.
  split; [exact H|].
  exact (proj1 (proj2 (cache_round_trip "profile" "{}" 1 1000 ∅ 61000 H))
           61000%Z (Z.le_refl _)).
Defined.

End OfflineCacheFacts.

(** * More about the service worker *)

Module ServiceWorkerMore.

Import ServiceWorker ServiceWorkerEvents MoreDescribed.

(** *** Caches *)


Lemma caches_match_put_some name u r cs :
  is_Some (caches_match u (cache_put name u r cs)).
Proof.
  induction cs as [|[n cache] cs IH]; simpl.
  - rewrite lookup_singleton_eq. by eexists.
  - case_bool_decide; simpl.
    + rewrite lookup_insert_eq. by eexists.
    + destruct (cache !! u); [by eexists|exact IH].
Qed.

Section FetchMore.

Variable fetch : Request -> Js.Settled Response.



(** X26. The worker writes to its caches only what the network answered
    with an ok status, under the URL of the request and into one of its
    three caches; a cache hit, a failed or a refused request leaves the
    caches as they are. *)
Theorem onFetch_stores_only_ok request cs served :
  onFetch fetch request cs = Some served ->
  caches_after served = cs
  \/ exists name response,
      fetch request = inr response
      /\ ok response = true
      /\ name ∈ [STATIC_CACHE; DYNAMIC_CACHE; OFFLINE_CACHE]
      /\ caches_after served = cache_put name (url request) response cs
      /\ answer served = inr (Some response).
Proof.
  unfold onFetch. destruct (negb _); [done|].
  destruct (String.prefix "/api/" (pathname request));
    [|destruct (isStaticAsset (pathname request));
      [|destruct (bool_decide (mode request = "navigate"))]];
    intros [= <-];
    unfold handleApiRequest, cacheFirst, networkFirstWithOfflineFallback,
      networkFirst;
    destruct (caches_match (url request) cs) as [cached|];
    destruct (fetch request) as [e|response] eqn:Hnet;
    try (by left);
    try (destruct (ok response) eqn:Hok; cbn [andb]);
    try (destruct (existsb _ OFFLINE_CAPABLE_ROUTES));
    try (by left);
    right; eexists _, response; (split; [done|]); (split; [done|]);
    (split; [|by split]); set_solver.
Qed.

(** X27. The worker answers with a rejection only on its default route,
    when the network has failed and no cache holds the URL; API requests
    and static assets always get a response, and a navigation gets one
    unless the network is down and neither the page nor the offline page
    is cached. *)
Theorem onFetch_rejects_only_default request cs served e :
  onFetch fetch request cs = Some served ->
  answer served = inl e ->
  fetch request = inl e
  /\ caches_match (url request) cs = None
  /\ String.prefix "/api/" (pathname request) = false
  /\ isStaticAsset (pathname request) = false
  /\ mode request <> "navigate".
Proof.
  unfold onFetch. destruct (negb _); [done|].
  destruct (String.prefix "/api/" (pathname request));
    [|destruct (isStaticAsset (pathname request));
      [|case_bool_decide as Hnav]];
    intros [= <-];
    unfold handleApiRequest, cacheFirst, networkFirstWithOfflineFallback,
      networkFirst;
    destruct (caches_match (url request) cs) as [cached|];
    destruct (fetch request) as [e'|response] eqn:Hnet;
    repeat case_match; cbn [answer]; try discriminate.
  intros [= ->]. done.
Qed.

End FetchMore.

(** *** The other listeners *)

(** X28. [activate] deletes a cache exactly when its name starts with
    [orbit-] and is not one of the three current names: the current
    caches and the caches of other origins' code are kept, in order, and
    running it again changes nothing. *)
Theorem onActivate_keeps_current cs :
  (forall c,
      c ∈ onActivate cs
      <-> c ∈ cs
          /\ (String.prefix "orbit-" c.1 = false
              \/ c.1 ∈ [STATIC_CACHE; DYNAMIC_CACHE; OFFLINE_CACHE]))
  /\ sublist (onActivate cs) cs
  /\ onActivate (onActivate cs) = onActivate cs.
Proof.
  split; [|split].
  - intros c. unfold onActivate.
    rewrite !list_elem_of_In, List.filter_In, <- !list_elem_of_In.
    unfold isOldCache.
    rewrite negb_true_iff, !andb_false_iff, !negb_false_iff,
      !bool_decide_eq_true.
    split; intros [Hin H]; (split; [done|]).
    + destruct H as [[[H|H]|H]|H]; [by left|right; set_solver..].
    + destruct H as [H|H]; [by left; left; left|].
      apply elem_of_cons in H as [H|H]; [by left; left; right|].
      apply elem_of_cons in H as [H|H]; [by left; right|].
      apply list_elem_of_singleton in H. by right.
  - unfold onActivate. induction cs as [|c cs IH]; simpl; [constructor|].
    destruct (negb _); [by apply sublist_skip|by apply sublist_cons].
  - unfold onActivate. induction cs as [|c cs IH]; simpl; [done|].
    destruct (negb (isOldCache c.1)) eqn:Hc; simpl; [|done].
    by rewrite Hc, IH.
Qed.

(** X29. The worker asks for a notification on every push whose payload
    parses, except a push of priority ['low'] while the permission is
    granted.  The notification it asks for is silent unless the priority is
    ['urgent'], it vibrates and requires interaction exactly when it is
    urgent, its icon and tag are never empty, and a push without usable
    data gets the default title and body. *)
Theorem onPush_requests payload permission :
  ((exists n, onPush payload permission = Some (inr n))
   <-> payload <> InvalidJson
       /\ forall data, payload = ObjectJson data ->
                       push_priority data = Some "low" ->
                       permission <> "granted")
  /\ (forall n,
        onPush payload permission = Some (inr n) ->
        (silent n = false <-> requireInteraction n = true)
        /\ (vibrate n <> [] <-> requireInteraction n = true)
        /\ (requireInteraction n = true
            <-> exists data, payload = ObjectJson data
                             /\ push_priority data = Some "urgent")
        /\ notification_icon n <> ""
        /\ notification_tag n <> ""
        /\ (payload = NoPayload \/ payload = FalsyJson ->
            notification_title n = Some "ORBIT"
            /\ notification_body n = Some "You have a new notification")).
Proof.
  split.
  - unfold onPush. split.
    + intros [n Hn]. destruct payload as [| | |data]; try discriminate;
        (split; [done|]); intros d [= <-] Hlow Hperm.
      rewrite (bool_decide_eq_true_2 _ Hlow) in Hn.
      rewrite (bool_decide_eq_true_2 _ Hperm) in Hn. discriminate Hn.
    + intros (Hvalid & Hprio).
      destruct payload as [| | |data]; [by eexists|done|by eexists|].
      specialize (Hprio data eq_refl).
      case_bool_decide as Hlow; [|by eexists].
      rewrite (bool_decide_eq_false_2 _ (Hprio Hlow)). by eexists.
  - intros n Hn. unfold onPush in Hn.
    assert (exists data,
               n = toNotification data
               /\ data = match payload with
                         | ObjectJson d => d
                         | _ => defaultPush
                         end) as (data & -> & Hdata).
    { destruct payload as [| | |d]; try discriminate;
        repeat case_match; try discriminate; injection Hn as <-;
        by eexists. }
    unfold toNotification. cbn [silent requireInteraction vibrate
      notification_icon notification_tag notification_title
      notification_body].
    split; [by destruct (isUrgent data)|].
    split; [by destruct (isUrgent data)|].
    split.
    { unfold isUrgent. rewrite bool_decide_eq_true. split.
      - intros Hu. destruct payload as [| | |d]; subst data;
          try discriminate Hu. by exists d.
      - intros (d & -> & Hu). by subst data. }
    split; [by apply CanvasMore.or_string_nonempty|].
    split; [by apply CanvasMore.or_string_nonempty|].
    intros [->| ->]; by subst data.
Qed.

(** X30. A click on a notification focuses the first open window whose URL
    is the target, and opens a new window at the target only when there is
    no such window; the target is [/] when the notification carries no
    URL. *)
Theorem onNotificationClick_focus_or_open url clientList openWindow :
  let targetUrl := Js.or_string url "/" in
  match onNotificationClick url clientList openWindow with
  | Focused client =>
      client_url client = targetUrl /\ has_focus client = true
      /\ exists before after,
          clientList = (before ++ client :: after)%list
          /\ forall c, c ∈ before ->
                       client_url c <> targetUrl \/ has_focus c = false
  | Opened target =>
      target = targetUrl /\ openWindow = true
      /\ forall c, c ∈ clientList ->
                   client_url c <> targetUrl \/ has_focus c = false
  | Nothing =>
      openWindow = false
      /\ forall c, c ∈ clientList ->
                   client_url c <> targetUrl \/ has_focus c = false
  end.
Proof.
  cbv zeta. unfold onNotificationClick.
  set (targetUrl := Js.or_string url "/").
  assert (forall clients,
             match firstToFocus targetUrl clients with
             | Some client =>
                 client_url client = targetUrl /\ has_focus client = true
                 /\ exists before after,
                     clients = (before ++ client :: after)%list
                     /\ forall c, c ∈ before ->
                                  client_url c <> targetUrl
                                  \/ has_focus c = false
             | None =>
                 forall c, c ∈ clients ->
                           client_url c <> targetUrl \/ has_focus c = false
             end) as Hloop.
  { induction clients as [|c clients IH]; simpl.
    - intros c Hc. by apply elem_of_nil in Hc.
    - destruct (bool_decide (client_url c = targetUrl) && has_focus c)
        eqn:Hc.
      + apply andb_true_iff in Hc as [Hu Hf].
        apply bool_decide_eq_true in Hu.
        split; [done|]. split; [done|]. exists [], clients.
        split; [done|]. intros c' Hc'. by apply elem_of_nil in Hc'.
      + assert (client_url c <> targetUrl \/ has_focus c = false) as Hno.
        { apply andb_false_iff in Hc as [Hu|Hf]; [left|by right].
          by apply bool_decide_eq_false in Hu. }
        destruct (firstToFocus targetUrl clients) as [client|].
        * destruct IH as (Hu & Hf & before & after & -> & Hbefore).
          split; [done|]. split; [done|]. exists (c :: before), after.
          split; [done|]. intros c' Hc'.
          apply elem_of_cons in Hc' as [->|Hc']; [done|by apply Hbefore].
        * intros c' Hc'.
          apply elem_of_cons in Hc' as [->|Hc']; [done|by apply IH]. }
  specialize (Hloop clientList).
  destruct (firstToFocus targetUrl clientList) as [client|]; [done|].
  by destruct openWindow.
Qed.

Import Samples MoreSamples.



Lemma onFetch_stores_only_ok_witness :
  onFetch online activeIntentsRequest []
  = Some (handleApiRequest online activeIntentsRequest [])
  /\ (caches_after (handleApiRequest online activeIntentsRequest []) = []
      \/ exists name response,
          online activeIntentsRequest = inr response
          /\ ok response = true
          /\ name ∈ [STATIC_CACHE; DYNAMIC_CACHE; OFFLINE_CACHE]
          /\ caches_after (handleApiRequest online activeIntentsRequest [])
             = cache_put name (url activeIntentsRequest) response []
          /\ answer (handleApiRequest online activeIntentsRequest [])
             = inr (Some response)).
Proof.
  assert (H : onFetch online activeIntentsRequest []
              = Some (handleApiRequest online activeIntentsRequest []))
    by reflexivity.
  split; [exact H|].
  exact (onFetch_stores_only_ok online activeIntentsRequest [] _ H).
Defined.

Lemma onFetch_rejects_only_default_witness :
  onFetch offline plainRequest [] = Some (networkFirst offline plainRequest [])
  /\ answer (networkFirst offline plainRequest [])
     = inl (Js.TypeError "Failed to fetch")
  /\ mode plainRequest <> "navigate".
Proof.
  assert (H1 : onFetch offline plainRequest []
               = Some (networkFirst offline plainRequest []))
    by reflexivity.
  assert (H2 : answer (networkFirst offline plainRequest [])
               = inl (Js.TypeError "Failed to fetch")) by reflexivity.
  split; [exact H1|]. split; [exact H2|].
  exact (proj2 (proj2 (proj2 (proj2
           (onFetch_rejects_only_default offline plainRequest [] _ _
              H1 H2))))).
Defined.

End ServiceWorkerMore.
